(** * eventstore: the command router and the browse ledger

    A shallow embedding of [src/server.js] (the command router,
    [WebSocketServer.handleMessage]) and of [src/db/browselogs.js]
    ([BrowseLogsService]: report 700, read 703, count 704), together
    with the properties of the specification that concern them.

    Conventions of the embedding.
    - A JavaScript field that may be [undefined] or [null] is an [option];
      MongoDB stores [undefined] as [null] and a query value [null]
      matches a stored [null] or a missing field, so both are [None].
    - Instants ([Date] values, [Date.now()]) are milliseconds since the
      epoch, in [Z]. One call of a ledger operation reads the server
      clock as a single instant [now].
    - The collection is the list of its documents in insertion order,
      with the counter that produces the next [_id]. *)

From Stdlib Require Import ZArith List String Bool Lia Arith.
From Stdlib Require Import Sorting.Sorted Permutation.
Import ListNotations.
Local Open Scope string_scope.
Local Open Scope list_scope.
Local Open Scope Z_scope.

(** ** JavaScript truthiness and equality on the values used *)

Module Js.

(** [!!s] for a string-or-undefined value: the empty string and
    [undefined] are falsy. *)
Definition truthyStr (v : option string) : bool :=
  match v with
  | Some s => negb (s =? "")%string
  | None => false
  end.

(** [!!n] for an integer-or-undefined value: [0] and [undefined] are
    falsy. *)
Definition truthyZ (v : option Z) : bool :=
  match v with
  | Some n => negb (n =? 0)
  | None => false
  end.

(** [v || d] on strings. *)
Definition orStr (v : option string) (d : string) : string :=
  match v with
  | Some s => if (s =? "")%string then d else s
  | None => d
  end.

(** [v || null] on strings: a falsy value becomes [null]. *)
Definition orNull (v : option string) : option string :=
  if truthyStr v then v else None.

Definition orNat (v : option nat) (d : nat) : nat :=
  match v with
  | Some n => if (n =? 0)%nat then d else n
  | None => d
  end.

(** Equality of two string-or-null values, as a MongoDB equality
    match compares them. *)
Definition eqOptStr (a b : option string) : bool :=
  match a, b with
  | Some x, Some y => (x =? y)%string
  | None, None => true
  | _, _ => false
  end.

End Js.

(** ** Data model: the documents of the [browselogs] collection *)

Definition ObjectId := nat.
Bind Scope nat_scope with ObjectId.

(** A stored BrowseRecord. [targetType] is not written by the report
    operation; it is a field that a document of the collection may or may
    not carry, and that the read operation can filter on. *)
Record BrowseRecord := mkBrowseRecord {
  _id : ObjectId;
  user : option string;
  anonymousId : option string;
  targetType : option string;
  targetId : string;
  ipAddress : string;
  createdAt : Z;
  updatedAt : Z
}.

(** The collection: documents in insertion order and the next fresh id. *)
Record Collection := mkCollection {
  docs : list BrowseRecord;
  nextId : ObjectId
}.

(** ** The fragment of MongoDB queries that the service builds *)

Module Mongo.

(** One [field: condition] entry of a query object. *)
Inductive Cond :=
| UserIs (v : option string)           (* user: v *)
| AnonymousIdIs (v : option string)    (* anonymousId: v *)
| TargetTypeIs (v : string)            (* targetType: v *)
| TargetIdIs (v : string)              (* targetId: v *)
| TargetIdIn (vs : list string)        (* targetId: { $in: vs } *)
| CreatedGte (lo : Z)                  (* createdAt: { $gte: lo } *)
| CreatedBetween (lo hi : Z).          (* createdAt: { $gte: lo, $lte: hi } *)

(** A query object without [$or]: the conjunction of its entries. *)
Definition Clause := list Cond.

(** A top-level entry: a field condition or [$or: [clause, ...]]. *)
Inductive Entry :=
| Field (c : Cond)
| Or (cs : list Clause).

Definition Query := list Entry.

Definition inStr (x : string) (l : list string) : bool :=
  existsb (fun y => (x =? y)%string) l.

Definition matchCond (c : Cond) (r : BrowseRecord) : bool :=
  match c with
  | UserIs v => Js.eqOptStr (user r) v
  | AnonymousIdIs v => Js.eqOptStr (anonymousId r) v
  | TargetTypeIs v => Js.eqOptStr (targetType r) (Some v)
  | TargetIdIs v => (targetId r =? v)%string
  | TargetIdIn vs => inStr (targetId r) vs
  | CreatedGte lo => lo <=? createdAt r
  | CreatedBetween lo hi => (lo <=? createdAt r) && (createdAt r <=? hi)
  end.

Definition matchClause (cl : Clause) (r : BrowseRecord) : bool :=
  forallb (fun c => matchCond c r) cl.

Definition matchEntry (e : Entry) (r : BrowseRecord) : bool :=
  match e with
  | Field c => matchCond c r
  | Or cs => existsb (fun cl => matchClause cl r) cs
  end.

Definition matches (q : Query) (r : BrowseRecord) : bool :=
  forallb (fun e => matchEntry e r) q.

(** [collection.findOne(q)]: the first matching document. *)
Definition findOne (q : Query) (c : Collection) : option BrowseRecord :=
  find (matches q) (docs c).

(** [collection.countDocuments(q)]. *)
Definition countDocuments (q : Query) (c : Collection) : nat :=
  List.length (filter (matches q) (docs c)).

(** [collection.insertOne(doc)]: the driver assigns a fresh [_id] and
    appends the document. The caller gives the document without its id. *)
Definition insertOne (mk : ObjectId -> BrowseRecord) (c : Collection)
  : BrowseRecord * Collection :=
  let r := mk (nextId c) in
  (r, mkCollection (docs c ++ [r]) (S (nextId c))).

(** [sort({createdAt: -1})]: newest first, by insertion into a sorted
    list. MongoDB does not specify the order of documents with equal
    instants, and may order them differently from one query to the next;
    here they keep their stored order. A statement that depends on the
    order among equal instants is made for distinct instants only. *)
Fixpoint insertDesc (r : BrowseRecord) (l : list BrowseRecord)
  : list BrowseRecord :=
  match l with
  | [] => [r]
  | x :: l' =>
      if createdAt x <=? createdAt r then r :: l
      else x :: insertDesc r l'
  end.

Fixpoint sortDesc (l : list BrowseRecord) : list BrowseRecord :=
  match l with
  | [] => []
  | r :: l' => insertDesc r (sortDesc l')
  end.

(** The instant that the driver sends for [new Date(ms)] in a query. A
    time value beyond 8.64e15 milliseconds from the epoch is an invalid
    date, whose time value is [NaN]; the BSON serializer writes the time
    value of a date as a 64-bit integer, and writes [NaN] as 0. *)
Definition dateSent (ms : Z) : Z :=
  if Z.abs ms <=? 8640000000000000 then ms else 0.

(** [find(q).sort({createdAt:-1}).skip(s).limit(n).toArray()], for a
    positive limit. *)
Definition findPage (q : Query) (s n : nat) (c : Collection)
  : list BrowseRecord :=
  firstn n (skipn s (sortDesc (filter (matches q) (docs c)))).

(** The [$match]/[$group]/[$project] pipeline of the batched count:
    one [(targetId, count)] entry for each distinct target among the
    documents whose target is requested. MongoDB leaves the order of
    the groups unspecified; here it is the order of [nodup]. *)
Definition groupCount (l : list BrowseRecord) : list (string * nat) :=
  let ids := map targetId l in
  map (fun t => (t, count_occ string_dec ids t)) (nodup string_dec ids).

Definition aggregateCounts (ts : list string) (c : Collection)
  : list (string * nat) :=
  groupCount (filter (matchCond (TargetIdIn ts)) (docs c)).

End Mongo.

(** ** The browse ledger: [BrowseLogsService] *)

(** What a handler returns: [{code, message, data}]. The count operation
    names its payload [counts]; it is the [data] component here. *)
Record Result (D : Type) := mkResult {
  code : Z;
  message : string;
  data : option D
}.
Arguments mkResult {D}.
Arguments code {D}.
Arguments message {D}.
Arguments data {D}.

(** A [created_at] as the envelope carries it: a number or a string. *)
Inductive JsTime :=
| TimeNum (ms : Z)
| TimeStr (s : string).

(** The event handed to [reportBrowseLog]. *)
Record BrowseEvent := mkBrowseEvent {
  be_code : Z;
  be_user : option string;
  be_anonymousId : option string;
  be_targetId : option string;
  be_ipAddress : option string;
  be_created_at : option JsTime
}.

Inductive ReportData :=
| AlreadyRecorded (browseId : ObjectId) (lastBrowseTime : Z)
| Recorded (browseId : ObjectId) (browseTime : Z).

(** The event handed to [readBrowseLogs]. The bounds of the time range
    are numbers, which [new Date] turns into instants; page numbers and
    sizes are naturals. *)
Record QueryEvent := mkQueryEvent {
  qe_code : Z;
  qe_user : option string;
  qe_anonymousId : option string;
  qe_userFilter : option string;
  qe_targetType : option string;
  qe_targetId : option string;
  qe_startTime : option Z;
  qe_endTime : option Z;
  qe_pageNum : option nat;
  qe_pageSize : option nat
}.

(** One element of the list that [readBrowseLogs] returns. *)
Record FormattedRecord := mkFormattedRecord {
  fr_id : ObjectId;
  fr_user : option string;
  fr_anonymousId : option string;
  fr_targetId : string;
  fr_createdAt : Z;
  fr_updatedAt : Z;
  fr_ipAddress : string
}.

Record ReadData := mkReadData {
  rd_list : list FormattedRecord;
  rd_pageNum : nat;
  rd_pageSize : nat;
  rd_total : nat
}.

(** The [targetId] of a count event: one id, or an array of ids. *)
Inductive TargetSel :=
| OneTarget (t : string)
| ManyTargets (ts : list string).

Record CountEvent := mkCountEvent {
  ce_code : Z;
  ce_targetId : TargetSel
}.

Inductive CountData :=
| Total (n : nat)
| PerTarget (l : list (string * nat)).

(** The service object: the administrator key of the configuration and
    the duplicate interval that the constructor sets. *)
Record BrowseLogsService := mkService {
  adminPubkey : string;
  duplicateInterval : Z
}.

Definition newService (configAdminPubkey : string) : BrowseLogsService :=
  {| adminPubkey := configAdminPubkey;
     duplicateInterval := 24 * 60 * 60 * 1000 |}.

Definition maskedIp : string := "******".

Section Ledger.

(** [Date.parse] on strings is the host's; [None] is [NaN]. *)
Variable Date_parse : string -> option Z.

Variable svc : BrowseLogsService.

Definition truthyTime (v : option JsTime) : bool :=
  match v with
  | Some (TimeNum ms) => negb (ms =? 0)
  | Some (TimeStr s) => negb (s =? "")%string
  | None => false
  end.

(** The time value of [new Date(v)]; [None] is an invalid date. *)
Definition newDate (v : JsTime) : option Z :=
  match v with
  | TimeNum ms => if Z.abs ms <=? 8640000000000000 then Some ms else None
  | TimeStr s => Date_parse s
  end.

(** [new Date(browseEvent.created_at || Date.now()).getTime()]. *)
Definition clientTime (browseEvent : BrowseEvent) (now : Z) : option Z :=
  match be_created_at browseEvent with
  | Some v => if truthyTime (Some v) then newDate v else Some now
  | None => Some now
  end.

(** [Math.abs(Date.now() - clientTime.getTime())]; [None] is [NaN]. *)
Definition timeDiff (browseEvent : BrowseEvent) (now : Z) : option Z :=
  option_map (fun t => Z.abs (now - t)) (clientTime browseEvent now).

(** [timeDiff > 5 * 60 * 1000]; a comparison with [NaN] is false. *)
Definition timeTooFar (browseEvent : BrowseEvent) (now : Z) : bool :=
  match timeDiff browseEvent now with
  | Some d => 5 * 60 * 1000 <? d
  | None => false
  end.

(** The duplicate query of the report: target and window, and the user
    only when the event has one. *)
Definition duplicateQuery (browseEvent : BrowseEvent) (t : string) (now : Z)
  : Mongo.Query :=
  let before24h := now - duplicateInterval svc in
  [Mongo.Field (Mongo.TargetIdIs t);
   Mongo.Field (Mongo.CreatedGte before24h)]
  ++ (if Js.truthyStr (be_user browseEvent)
      then [Mongo.Field (Mongo.UserIs (be_user browseEvent))]
      else []).

(** The document that the report builds, before the driver gives it
    its [_id]. *)
Definition browseRecord (browseEvent : BrowseEvent) (t : string) (now : Z)
  (id : ObjectId) : BrowseRecord :=
  {| _id := id;
     user := Js.orNull (be_user browseEvent);
     anonymousId := be_anonymousId browseEvent;
     targetType := None;
     targetId := t;
     ipAddress := Js.orStr (be_ipAddress browseEvent) "";
     createdAt := now;
     updatedAt := now |}.

Definition reportBrowseLog (browseEvent : BrowseEvent) (now : Z)
  (c : Collection) : Result ReportData * Collection :=
  if negb (be_code browseEvent =? 700) then
    (mkResult 400 "无效浏览记录code码，仅支持700" None, c)
  else if timeTooFar browseEvent now then
    (mkResult 500 "时间和服务器差距太大" None, c)
  else
    match be_targetId browseEvent with
    | None => (mkResult 400 "目标内容ID targetId不能为空" None, c)
    | Some t =>
        if (t =? "")%string then
          (mkResult 400 "目标内容ID targetId不能为空" None, c)
        else
          match Mongo.findOne (duplicateQuery browseEvent t now) c with
          | Some existingRecord =>
              (mkResult 200 "24小时内已记录该内容的浏览，无需重复上报"
                 (Some (AlreadyRecorded (_id existingRecord)
                          (createdAt existingRecord))), c)
          | None =>
              let (inserted, c') :=
                Mongo.insertOne (browseRecord browseEvent t now) c in
              (mkResult 200 "浏览记录上报成功"
                 (Some (Recorded (_id inserted) (createdAt inserted))), c')
          end
    end.

Definition isAdmin (queryEvent : QueryEvent) : bool :=
  Js.eqOptStr (qe_user queryEvent) (Some (adminPubkey svc)).

(** The query object of the read, entry by entry. *)
Definition ownerFilter (queryEvent : QueryEvent) : Mongo.Query :=
  if negb (isAdmin queryEvent) then
    [Mongo.Or
       [[Mongo.UserIs (qe_user queryEvent)];
        [Mongo.AnonymousIdIs (qe_anonymousId queryEvent);
         Mongo.UserIs None]]]
  else
    (if Js.truthyStr (qe_userFilter queryEvent)
     then [Mongo.Field (Mongo.UserIs (qe_userFilter queryEvent))] else [])
    ++ (if Js.truthyStr (qe_anonymousId queryEvent)
        then [Mongo.Field (Mongo.AnonymousIdIs (qe_anonymousId queryEvent))]
        else []).

Definition commonFilter (queryEvent : QueryEvent) : Mongo.Query :=
  (match qe_targetType queryEvent with
   | Some ty => if (ty =? "")%string then []
                else [Mongo.Field (Mongo.TargetTypeIs ty)]
   | None => []
   end)
  ++ (match qe_targetId queryEvent with
      | Some t => if (t =? "")%string then []
                  else [Mongo.Field (Mongo.TargetIdIs t)]
      | None => []
      end)
  ++ (match qe_startTime queryEvent, qe_endTime queryEvent with
      | Some lo, Some hi =>
          if negb (lo =? 0) && negb (hi =? 0)
          then [Mongo.Field
                  (Mongo.CreatedBetween (Mongo.dateSent lo)
                     (Mongo.dateSent hi))]
          else []
      | _, _ => []
      end).

Definition readQuery (queryEvent : QueryEvent) : Mongo.Query :=
  ownerFilter queryEvent ++ commonFilter queryEvent.

Definition formatRecord (queryEvent : QueryEvent) (record : BrowseRecord)
  : FormattedRecord :=
  {| fr_id := _id record;
     fr_user := user record;
     fr_anonymousId := anonymousId record;
     fr_targetId := targetId record;
     fr_createdAt := createdAt record;
     fr_updatedAt := updatedAt record;
     fr_ipAddress :=
       if isAdmin queryEvent then ipAddress record else maskedIp |}.

(** The documents that the read fetches, before they are formatted. *)
Definition browseRecords (queryEvent : QueryEvent) (c : Collection)
  : list BrowseRecord :=
  let pageNum := Js.orNat (qe_pageNum queryEvent) 1 in
  let pageSize := Js.orNat (qe_pageSize queryEvent) 20 in
  let skip := ((pageNum - 1) * pageSize)%nat in
  Mongo.findPage (readQuery queryEvent) skip pageSize c.

Definition readBrowseLogs (queryEvent : QueryEvent) (c : Collection)
  : Result ReadData :=
  if negb (qe_code queryEvent =? 703) then
    mkResult 400 "无效浏览记录查询code码，仅支持703" None
  else
    let pageNum := Js.orNat (qe_pageNum queryEvent) 1 in
    let pageSize := Js.orNat (qe_pageSize queryEvent) 20 in
    let formattedRecords :=
      map (formatRecord queryEvent) (browseRecords queryEvent c) in
    mkResult 200 "浏览记录查询成功"
      (Some {| rd_list := formattedRecords;
               rd_pageNum := pageNum;
               rd_pageSize := pageSize;
               rd_total := Mongo.countDocuments (readQuery queryEvent) c |}).

Definition countBrowseLogs (countEvent : CountEvent) (c : Collection)
  : Result CountData :=
  if negb (ce_code countEvent =? 704) then
    mkResult 400 "无效浏览记录统计code码，仅支持704" None
  else
    match ce_targetId countEvent with
    | ManyTargets ts =>
        mkResult 200 "统计成功"
          (Some (PerTarget (Mongo.aggregateCounts ts c)))
    | OneTarget t =>
        let filter := [Mongo.Field (Mongo.TargetIdIs t)] in
        mkResult 200 "统计成功"
          (Some (Total (Mongo.countDocuments filter c)))
    end.

End Ledger.

(** ** The command router: [WebSocketServer.handleMessage] *)

Module Router.

(** The [data] object of an envelope; [createUser] reads its [email]. *)
Record EventData := mkEventData {
  email : option string
}.

(** The decoded envelope, [message[2]]. *)
Record Event := mkEvent {
  ev_ops : option string;
  ev_code : option Z;
  ev_user : option string;
  ev_sig : option string;
  ev_created_at : option JsTime;
  ev_data : option EventData;
  ev_tags : option (list (list string))
}.

(** What [JSON.parse(message)[2]] gives: the text is not JSON, the
    array has no third element, or an envelope. *)
Inductive Frame :=
| NotJson
| NoEnvelope
| Envelope (event : Event).

(** The calls into the domain services of the repository. The router
    holds a user service and an event service; the ledger operations
    are the three methods of [BrowseLogsService]. *)
Inductive HandlerCall :=
| createUser (pubkey : string) (mail : option string) (sig : option string)
| getUserByPubkey (pubkey : string)
| updateUser (pubkey : string) (d : option EventData)
| deleteUser (pubkey : string)
| createEvent (event : Event)
| readEvents (pubkey : string) (limit : nat)
| reportBrowseLog (event : Event)
| readBrowseLogs (event : Event)
| countBrowseLogs (event : Event).

Inductive Domain := UserDomain | EventDomain | LedgerDomain.

Definition domainOf (h : HandlerCall) : Domain :=
  match h with
  | createUser _ _ _ | getUserByPubkey _ | updateUser _ _ | deleteUser _ =>
      UserDomain
  | createEvent _ | readEvents _ _ => EventDomain
  | reportBrowseLog _ | readBrowseLogs _ | countBrowseLogs _ => LedgerDomain
  end.

(** The errors that [handleMessage] throws and catches itself. *)
Inductive Error :=
| SyntaxError                  (* JSON.parse *)
| TypeError                    (* a property of undefined *)
| InvalidFormat                (* 无效的事件格式: 缺少 ops、code 或 user 字段 *)
| UpdateEventNotImplemented    (* 更新事件信息的功能暂未实现 *)
| DeleteEventNotImplemented    (* 删除事件的功能暂未实现 *)
| UnknownOps (ops : string).   (* 未知的 ops 类型 *)

(** How a message ends: a handler was called, or the switch fell
    through with [response] undefined and nothing called, or an error
    was thrown, caught and logged. *)
Inductive Outcome :=
| Invoked (h : HandlerCall)
| NoResponse
| Thrown (e : Error).

Definition inRange (lo hi c : Z) : bool := (lo <=? c) && (c <? hi).

Definition dispatch (event : Event) (ops : string) (c : Z) (u : string)
  : Outcome :=
  if (ops =? "C")%string then
    if inRange 100 200 c then
      if c =? 100 then
        match ev_data event with
        | Some d => Invoked (createUser u (email d) (ev_sig event))
        | None => Thrown TypeError
        end
      else NoResponse
    else if inRange 200 300 c then
      if c =? 200 then Invoked (createEvent event) else NoResponse
    else NoResponse
  else if (ops =? "R")%string then
    if inRange 100 200 c then
      if c =? 103 then Invoked (getUserByPubkey u) else NoResponse
    else if inRange 200 300 c then
      if c =? 203 then Invoked (readEvents u 1000) else NoResponse
    else NoResponse
  else if (ops =? "U")%string then
    if inRange 100 200 c then
      if c =? 101 then Invoked (updateUser u (ev_data event))
      else NoResponse
    else if inRange 200 300 c then
      if c =? 201 then Thrown UpdateEventNotImplemented else NoResponse
    else NoResponse
  else if (ops =? "D")%string then
    if inRange 100 200 c then
      if c =? 102 then Invoked (deleteUser u) else NoResponse
    else if inRange 200 300 c then
      if c =? 202 then Thrown DeleteEventNotImplemented else NoResponse
    else NoResponse
  else Thrown (UnknownOps ops).

(** [!event.ops || !event.code || !event.user]. *)
Definition missingField (event : Event) : bool :=
  negb (Js.truthyStr (ev_ops event))
  || negb (Js.truthyZ (ev_code event))
  || negb (Js.truthyStr (ev_user event)).

Definition handleMessage (message : Frame) : Outcome :=
  match message with
  | NotJson => Thrown SyntaxError
  | NoEnvelope => Thrown TypeError
  | Envelope event =>
      if missingField event then Thrown InvalidFormat
      else
        match ev_ops event, ev_code event, ev_user event with
        | Some ops, Some c, Some u => dispatch event ops c u
        | _, _, _ => Thrown InvalidFormat
        end
  end.

(** The [(ops, code)] pairs at which the switch calls a service. *)
Definition registered (ops : string) (c : Z) : bool :=
  ((ops =? "C")%string && ((c =? 100) || (c =? 200)))
  || ((ops =? "R")%string && ((c =? 103) || (c =? 203)))
  || ((ops =? "U")%string && (c =? 101))
  || ((ops =? "D")%string && (c =? 102)).

(** The four operation letters of the switch. *)
Definition knownOps (ops : string) : bool :=
  (ops =? "C")%string || (ops =? "R")%string
  || (ops =? "U")%string || (ops =? "D")%string.

(** The ledger operation that answers a code, by the code check at the
    head of each method of [BrowseLogsService]. *)
Definition ledgerHandler (c : Z) (event : Event) : option HandlerCall :=
  if c =? 700 then Some (reportBrowseLog event)
  else if c =? 703 then Some (readBrowseLogs event)
  else if c =? 704 then Some (countBrowseLogs event)
  else None.

End Router.

(** ** Vocabulary of the statements *)

(** A report event that passes the three validations at instant [now],
    with target [t]. *)
Definition validReport (Date_parse : string -> option Z)
  (browseEvent : BrowseEvent) (now : Z) (t : string) : Prop :=
  be_code browseEvent = 700
  /\ timeTooFar Date_parse browseEvent now = false
  /\ be_targetId browseEvent = Some t
  /\ t <> "".

(** Two report events of the same viewer for the same target. *)
Definition sameKey (e1 e2 : BrowseEvent) : Prop :=
  be_targetId e1 = be_targetId e2
  /\ be_user e1 = be_user e2
  /\ be_anonymousId e1 = be_anonymousId e2.

(** The key of deduplication that the records carry: the user when there
    is one, else the anonymous id of a record without user. *)
Definition recordOfViewer (browseEvent : BrowseEvent) (r : BrowseRecord)
  : Prop :=
  if Js.truthyStr (be_user browseEvent)
  then user r = be_user browseEvent
  else user r = None /\ anonymousId r = be_anonymousId browseEvent.

(** The same read event with another [userFilter]. *)
Definition withUserFilter (queryEvent : QueryEvent) (f : option string)
  : QueryEvent :=
  {| qe_code := qe_code queryEvent;
     qe_user := qe_user queryEvent;
     qe_anonymousId := qe_anonymousId queryEvent;
     qe_userFilter := f;
     qe_targetType := qe_targetType queryEvent;
     qe_targetId := qe_targetId queryEvent;
     qe_startTime := qe_startTime queryEvent;
     qe_endTime := qe_endTime queryEvent;
     qe_pageNum := qe_pageNum queryEvent;
     qe_pageSize := qe_pageSize queryEvent |}.

(** The number of stored documents of a target, over all time. *)
Definition viewsOf (t : string) (c : Collection) : nat :=
  count_occ string_dec (map targetId (docs c)) t.

(** ** Concrete ledgers and events *)

Module Examples.

Definition noParse (s : string) : option Z := None.

Definition service : BrowseLogsService := newService "admin-pubkey".

Definition empty : Collection := mkCollection [] 0.

Definition t0 : Z := 1700000000000.

Definition minute : Z := 60 * 1000.
Definition hour : Z := 60 * minute.

Definition view (id : ObjectId) (u a : option string) (t ip : string)
  (at_ : Z) : BrowseRecord :=
  mkBrowseRecord id u a None t ip at_ at_.

(** An anonymous report of ["post-1"] by the client ["anon-A"]. *)
Definition anonA : BrowseEvent :=
  mkBrowseEvent 700 None (Some "anon-A") (Some "post-1") None None.

(** The ledger after another anonymous client, ["anon-B"], has viewed
    ["post-1"] at [t0]. *)
Definition afterAnonB : Collection :=
  mkCollection [view 0 None (Some "anon-B") "post-1" "10.0.0.2" t0] 1.

(** A report without user and without anonymous id. *)
Definition nobody : BrowseEvent :=
  mkBrowseEvent 700 None None (Some "post-1") None None.

(** A report of ["post-1"] by the user ["alice"]. *)
Definition alice : BrowseEvent :=
  mkBrowseEvent 700 (Some "alice") (Some "anon-A") (Some "post-1")
    (Some "10.0.0.1") None.

Definition aliceStamped (ms : Z) : BrowseEvent :=
  mkBrowseEvent 700 (Some "alice") (Some "anon-A") (Some "post-1")
    (Some "10.0.0.1") (Some (TimeNum ms)).



(** Three targets with 5, 0 and 2 recorded views. *)
Definition threeTargets : Collection :=
  mkCollection
    [view 0 (Some "alice") (Some "a1") "p1" "10.0.0.1" t0;
     view 1 None (Some "a2") "p3" "10.0.0.2" (t0 + 1);
     view 2 (Some "bob") (Some "a3") "p1" "10.0.0.3" (t0 + 2);
     view 3 None (Some "a4") "p1" "10.0.0.4" (t0 + 3);
     view 4 (Some "carol") (Some "a5") "p3" "10.0.0.5" (t0 + 4);
     view 5 None (Some "a6") "p1" "10.0.0.6" (t0 + 5);
     view 6 (Some "dave") (Some "a7") "p1" "10.0.0.7" (t0 + 6)] 7.

(** A ledger with records of two users and of an anonymous client. *)
Definition mixed : Collection :=
  mkCollection
    [view 0 (Some "alice") (Some "anon-A") "post-1" "10.0.0.1" t0;
     view 1 (Some "bob") (Some "anon-B") "post-1" "10.0.0.2" (t0 + 1);
     view 2 None (Some "anon-A") "post-2" "10.0.0.1" (t0 + 2);
     mkBrowseRecord 3 (Some "alice") (Some "anon-A") (Some "article")
       "post-3" "10.0.0.1" (t0 + 3) (t0 + 3)] 4.

Definition readAs (u : string) (a f ty : option string) : QueryEvent :=
  mkQueryEvent 703 (Some u) a f ty None None None None None.

Definition envelope (ops : string) (c : Z) : Router.Event :=
  Router.mkEvent (Some ops) (Some c) (Some "alice") (Some "sig") None
    None None.

End Examples.

(** ** Vocabulary of the further statements *)

(** A caller that reports one event after the other: each event with the
    instant at which the server handles it. *)
Definition runReports (Date_parse : string -> option Z)
  (svc : BrowseLogsService) (evs : list (BrowseEvent * Z)) (c : Collection)
  : Collection :=
  fold_left (fun acc en => snd (reportBrowseLog Date_parse svc (fst en)
                                  (snd en) acc))
    evs c.

(** Two stored documents, the first inserted before the second, do not
    fall in one duplicate window: when they are of the same target and
    the second has no user or has the user of the first, the second is
    later than the first by more than the duplicate interval. *)
Definition windowApart (svc : BrowseLogsService) (r1 r2 : BrowseRecord)
  : Prop :=
  targetId r1 = targetId r2 ->
  user r2 = None \/ user r1 = user r2 ->
  createdAt r1 + duplicateInterval svc < createdAt r2.

(** The same report event with another [user], another [created_at]. *)
Definition withUser (e : BrowseEvent) (u : option string) : BrowseEvent :=
  mkBrowseEvent (be_code e) u (be_anonymousId e) (be_targetId e)
    (be_ipAddress e) (be_created_at e).

Definition withCreatedAt (e : BrowseEvent) (v : option JsTime)
  : BrowseEvent :=
  mkBrowseEvent (be_code e) (be_user e) (be_anonymousId e) (be_targetId e)
    (be_ipAddress e) v.

(** The same read event with another page, another time range. *)
Definition withPage (q : QueryEvent) (pageNum pageSize : option nat)
  : QueryEvent :=
  mkQueryEvent (qe_code q) (qe_user q) (qe_anonymousId q) (qe_userFilter q)
    (qe_targetType q) (qe_targetId q) (qe_startTime q) (qe_endTime q)
    pageNum pageSize.

Definition withTimeRange (q : QueryEvent) (lo hi : option Z) : QueryEvent :=
  mkQueryEvent (qe_code q) (qe_user q) (qe_anonymousId q) (qe_userFilter q)
    (qe_targetType q) (qe_targetId q) lo hi (qe_pageNum q) (qe_pageSize q).

(** All the stored documents that the query of a read matches, newest
    first: what the pages are cut from. *)
Definition allMatches (svc : BrowseLogsService) (q : QueryEvent)
  (c : Collection) : list BrowseRecord :=
  Mongo.sortDesc (filter (Mongo.matches (readQuery svc q)) (docs c)).


(** The list of records of an answer to a read; empty when the answer
    carries no data. *)
Definition returnedList (res : Result ReadData) : list FormattedRecord :=
  match data res with
  | Some d => rd_list d
  | None => []
  end.

(** A stored document no older than another. *)
Definition notOlder (x y : BrowseRecord) : Prop := createdAt y <= createdAt x.

(** Newest first. *)
Definition newerFirst (x y : FormattedRecord) : Prop :=
  fr_createdAt y <= fr_createdAt x.

(** The sum of the counts of a batched count. *)
Definition sumCounts (l : list (string * nat)) : nat :=
  fold_right (fun tn acc => (snd tn + acc)%nat) 0%nat l.

(** The user on whose behalf a service is called. *)
Definition subjectOf (h : Router.HandlerCall) : option string :=
  match h with
  | Router.createUser u _ _ | Router.getUserByPubkey u
  | Router.updateUser u _ | Router.deleteUser u
  | Router.readEvents u _ => Some u
  | Router.createEvent event | Router.reportBrowseLog event
  | Router.readBrowseLogs event | Router.countBrowseLogs event =>
      Router.ev_user event
  end.

(** The call that the switch makes at a registered pair. *)
Definition handlerAt (event : Router.Event) (ops : string) (c : Z)
  (u : string) : option Router.HandlerCall :=
  if (ops =? "C")%string && (c =? 100) then
    option_map (fun d => Router.createUser u (Router.email d)
                           (Router.ev_sig event))
      (Router.ev_data event)
  else if (ops =? "C")%string && (c =? 200) then
    Some (Router.createEvent event)
  else if (ops =? "R")%string && (c =? 103) then
    Some (Router.getUserByPubkey u)
  else if (ops =? "R")%string && (c =? 203) then
    Some (Router.readEvents u 1000)
  else if (ops =? "U")%string && (c =? 101) then
    Some (Router.updateUser u (Router.ev_data event))
  else if (ops =? "D")%string && (c =? 102) then
    Some (Router.deleteUser u)
  else None.

(** * Properties *)

(** ** Lists, truthiness and queries *)

Lemma eqOptStr_spec (a b : option string) : Js.eqOptStr a b = true <-> a = b.
Proof.
  destruct a as [x|], b as [y|]; simpl; try (split; congruence).
  rewrite String.eqb_eq. split; congruence.
Qed.

Lemma eqOptStr_refl (a : option string) : Js.eqOptStr a a = true.
Proof. now apply eqOptStr_spec. Qed.

Lemma truthyStr_orNull (v : option string) :
  Js.truthyStr v = true -> Js.orNull v = v.
Proof. unfold Js.orNull. now intros ->. Qed.

Lemma falsyStr_orNull (v : option string) :
  Js.truthyStr v = false -> Js.orNull v = None.
Proof. unfold Js.orNull. now intros ->. Qed.

Lemma truthyStr_Some (v : option string) :
  Js.truthyStr v = true <-> exists s, v = Some s /\ s <> "".
Proof.
  destruct v as [s|]; simpl.
  - rewrite negb_true_iff, String.eqb_neq. split.
    + intros H. now exists s.
    + intros (s' & [= <-] & H). exact H.
  - split; [discriminate | intros (s & [=] & _)].
Qed.

Lemma find_snoc {A} (p : A -> bool) (l : list A) (x : A) :
  find p l = None -> find p (l ++ [x]) = if p x then Some x else None.
Proof.
  induction l as [|y l IH]; simpl; [reflexivity|].
  destruct (p y); [discriminate | exact IH].
Qed.

Lemma find_None_iff {A} (p : A -> bool) (l : list A) :
  find p l = None <-> forall x, In x l -> p x = false.
Proof.
  split; [apply find_none|].
  induction l as [|y l IH]; simpl; intros H; [reflexivity|].
  rewrite (H y (or_introl eq_refl)). apply IH. intros x Hx. apply H. now right.
Qed.

Lemma filter_none {A} (p : A -> bool) (l : list A) :
  (forall x, In x l -> p x = false) -> filter p l = [].
Proof.
  induction l as [|y l IH]; simpl; intros H; [reflexivity|].
  rewrite (H y (or_introl eq_refl)). apply IH. intros x Hx. apply H. now right.
Qed.

Lemma In_insertDesc r x l :
  In x (Mongo.insertDesc r l) <-> x = r \/ In x l.
Proof.
  induction l as [|y l IH]; simpl.
  - intuition congruence.
  - destruct (createdAt y <=? createdAt r); simpl; rewrite ?IH;
      intuition congruence.
Qed.

Lemma In_sortDesc x l : In x (Mongo.sortDesc l) <-> In x l.
Proof.
  induction l as [|y l IH]; simpl; [tauto|].
  rewrite In_insertDesc, IH. intuition congruence.
Qed.

Lemma In_firstn_In {A} (n : nat) (l : list A) (x : A) :
  In x (firstn n l) -> In x l.
Proof.
  revert l. induction n as [|n IH]; intros [|y l]; simpl; try tauto.
  intros [->|H]; [now left | right; now apply IH].
Qed.

Lemma In_skipn_In {A} (n : nat) (l : list A) (x : A) :
  In x (skipn n l) -> In x l.
Proof.
  revert l. induction n as [|n IH]; intros [|y l]; simpl; try tauto.
  intros H. right. now apply IH.
Qed.

(** Every document of a page is a stored document that the query matches. *)
Lemma In_findPage q s n c r :
  In r (Mongo.findPage q s n c) -> In r (docs c) /\ Mongo.matches q r = true.
Proof.
  unfold Mongo.findPage. intros H.
  apply In_firstn_In, In_skipn_In in H.
  apply In_sortDesc, filter_In in H. exact H.
Qed.

Lemma matches_app q1 q2 r :
  Mongo.matches (q1 ++ q2) r = Mongo.matches q1 r && Mongo.matches q2 r.
Proof. unfold Mongo.matches. apply forallb_app. Qed.

(** ** The report operation *)

Section Report.

Variable Date_parse : string -> option Z.
Variable svc : BrowseLogsService.

(** The duplicate query, read as a predicate on a stored document. *)
Lemma matches_duplicateQuery e t now r :
  Mongo.matches (duplicateQuery svc e t now) r
  = (targetId r =? t)%string
    && (now - duplicateInterval svc <=? createdAt r)
    && (if Js.truthyStr (be_user e)
        then Js.eqOptStr (user r) (be_user e) else true).
Proof.
  unfold duplicateQuery. rewrite matches_app.
  destruct (Js.truthyStr (be_user e)); simpl;
    now rewrite ?andb_true_r, ?andb_assoc.
Qed.

(** A document that a later duplicate check of the same viewer matches
    was matched by every earlier one. *)
Lemma duplicateQuery_later e1 e2 t now1 now2 r :
  be_user e1 = be_user e2 -> now1 <= now2 ->
  Mongo.matches (duplicateQuery svc e1 t now1) r = false ->
  Mongo.matches (duplicateQuery svc e2 t now2) r = false.
Proof.
  intros Hu Hle. rewrite !matches_duplicateQuery, <- Hu.
  destruct (targetId r =? t)%string; simpl; [|reflexivity].
  destruct (Js.truthyStr (be_user e1)).
  - destruct (Js.eqOptStr (user r) (be_user e1));
      rewrite ?andb_false_r, ?andb_true_r; [|reflexivity].
    rewrite !Z.leb_gt. lia.
  - rewrite !andb_true_r, !Z.leb_gt. lia.
Qed.

(** After the validations, the report is the duplicate check followed
    by the answer or the insertion. *)
Lemma reportBrowseLog_valid e now t c :
  validReport Date_parse e now t ->
  reportBrowseLog Date_parse svc e now c
  = match Mongo.findOne (duplicateQuery svc e t now) c with
    | Some existingRecord =>
        (mkResult 200 "24小时内已记录该内容的浏览，无需重复上报"
           (Some (AlreadyRecorded (_id existingRecord)
                    (createdAt existingRecord))), c)
    | None =>
        (mkResult 200 "浏览记录上报成功"
           (Some (Recorded (nextId c) now)),
         mkCollection (docs c ++ [browseRecord e t now (nextId c)])
           (S (nextId c)))
    end.
Proof.
  intros (Hc & Hs & Ht & Hne). unfold reportBrowseLog.
  rewrite Hc, Hs, Ht. simpl.
  apply String.eqb_neq in Hne. rewrite Hne.
  destruct (Mongo.findOne _ c); reflexivity.
Qed.

(** The document that the report builds is one of its viewer. *)
Lemma browseRecord_ofViewer e t now id :
  recordOfViewer e (browseRecord e t now id).
Proof.
  unfold recordOfViewer.
  destruct (Js.truthyStr (be_user e)) eqn:E; simpl.
  - now apply truthyStr_orNull.
  - split; [now apply falsyStr_orNull | reflexivity].
Qed.

(** A document of the viewer, of the target and of the window is one
    that the duplicate query matches. *)
Lemma ofViewer_matches e t now r :
  recordOfViewer e r -> targetId r = t ->
  now - duplicateInterval svc <= createdAt r ->
  Mongo.matches (duplicateQuery svc e t now) r = true.
Proof.
  intros Hv Ht Hw. rewrite matches_duplicateQuery.
  unfold recordOfViewer in Hv.
  apply String.eqb_eq in Ht. apply Z.leb_le in Hw. rewrite Ht, Hw. simpl.
  destruct (Js.truthyStr (be_user e)); [|reflexivity].
  now apply eqOptStr_spec.
Qed.

End Report.

(** For an event without user the duplicate query tests the target and
    the window only: neither the anonymous id nor the user of the stored
    document is looked at. *)
Lemma duplicateQuery_anonymous svc e t now r :
  Js.truthyStr (be_user e) = false ->
  Mongo.matches (duplicateQuery svc e t now) r
  = (targetId r =? t)%string && (now - duplicateInterval svc <=? createdAt r).
Proof.
  intros H. rewrite matches_duplicateQuery, H. apply andb_true_r.
Qed.

(** C1. The duplicate check of an anonymous report, evaluated: one minute
    after the client anon-B has viewed post-1, the report of post-1 by the
    client anon-A is answered as already recorded, with the id and the
    instant of the record of anon-B, and the ledger is left as it was. A
    recent record of a different anonymous id does count as a duplicate. *)
Theorem report_anonymous_matches_other_anonymousId :
  let now := Examples.t0 + Examples.minute in
  Js.truthyStr (be_user Examples.anonA) = false
  /\ (forall r, In r (docs Examples.afterAnonB) ->
        anonymousId r <> be_anonymousId Examples.anonA)
  /\ validReport Examples.noParse Examples.anonA now "post-1"
  /\ reportBrowseLog Examples.noParse Examples.service Examples.anonA now
       Examples.afterAnonB
     = (mkResult 200 "24小时内已记录该内容的浏览，无需重复上报"
          (Some (AlreadyRecorded 0 Examples.t0)),
        Examples.afterAnonB).
Proof.
  simpl. split; [reflexivity|]. split.
  - intros r [<-|[]]. discriminate.
  - split; [|reflexivity].
    unfold validReport. repeat split; discriminate.
Qed.

(** C9. The report of an event that has neither user nor anonymous id,
    evaluated on the empty ledger: it is accepted with code 200 and the
    record it persists has a null user and a null anonymous id. *)
Theorem report_persists_null_user_null_anonymousId :
  validReport Examples.noParse Examples.nobody Examples.t0 "post-1"
  /\ reportBrowseLog Examples.noParse Examples.service Examples.nobody
       Examples.t0 Examples.empty
     = (mkResult 200 "浏览记录上报成功" (Some (Recorded 0 Examples.t0)),
        mkCollection
          [mkBrowseRecord 0 None None None "post-1" "" Examples.t0
             Examples.t0] 1).
Proof.
  split; [|reflexivity].
  unfold validReport. repeat split; discriminate.
Qed.







(** C3. Two reports of one anonymous viewer, evaluated. In the ledger
    where the client anon-B has viewed post-1 at [t0], the client anon-A
    reports post-1 one minute and two minutes later: both reports are
    answered as already recorded with the id and the instant of the
    record of anon-B, and the ledger holds no record of anon-A, neither
    one nor any. And after anon-A has viewed post-1 at [t0] and alice 23
    hours later, the report of anon-A 25 hours after its first, its own
    window over, is answered with the record of alice and no second
    record of anon-A is inserted. *)
Theorem report_anonymous_twice_records_nothing :
  let report := reportBrowseLog Examples.noParse Examples.service in
  let dup := "24小时内已记录该内容的浏览，无需重复上报" in
  let t0 := Examples.t0 in
  let c := Examples.afterAnonB in
  let c1 := snd (report Examples.anonA t0 Examples.empty) in
  let c2 := snd (report Examples.alice (t0 + 23 * Examples.hour) c1) in
  validReport Examples.noParse Examples.anonA (t0 + Examples.minute) "post-1"
  /\ report Examples.anonA (t0 + Examples.minute) c
     = (mkResult 200 dup (Some (AlreadyRecorded 0 t0)), c)
  /\ report Examples.anonA (t0 + 2 * Examples.minute) c
     = (mkResult 200 dup (Some (AlreadyRecorded 0 t0)), c)
  /\ (forall r, In r (docs c) -> anonymousId r <> Some "anon-A")
  /\ map anonymousId (docs c1) = [Some "anon-A"]
  /\ map user (docs c2) = [None; Some "alice"]
  /\ report Examples.anonA (t0 + 25 * Examples.hour) c2
     = (mkResult 200 dup
          (Some (AlreadyRecorded 1 (t0 + 23 * Examples.hour))), c2).
Proof.
  cbv zeta. split.
  - unfold validReport. repeat split; discriminate.
  - split; [reflexivity|]. split; [reflexivity|]. split.
    + intros r [<-|[]]. discriminate.
    + repeat split.
Qed.

(** Idempotent reporting and window expiry, for a first report whose
    duplicate check finds nothing. A viewer reports a target at [now1],
    in a ledger where the duplicate check of that report finds nothing:
    one record is inserted, with a fresh id and [createdAt =
    now1]. A second report of the same viewer and target at [now2], no
    more than 24 hours after [now1], inserts nothing and leaves the
    ledger, and so the record and its [createdAt], exactly as it was; it
    returns code 200 with the id and the instant of the first record,
    which is the only record of that viewer and target in the window. A
    report at [now3], more than 24 hours after [now1], inserts a second
    record with another id and [createdAt = now3]. *)
Theorem report_idempotent_then_expires
  P adminKey e1 e2 e3 t now1 now2 now3 c :
  let svc := newService adminKey in
  let r1 := browseRecord e1 t now1 (nextId c) in
  let c1 := mkCollection (docs c ++ [r1]) (S (nextId c)) in
  let r3 := browseRecord e3 t now3 (S (nextId c)) in
  validReport P e1 now1 t -> validReport P e2 now2 t ->
  validReport P e3 now3 t ->
  sameKey e1 e2 -> sameKey e1 e3 ->
  Mongo.findOne (duplicateQuery svc e1 t now1) c = None ->
  now1 <= now2 -> now2 <= now1 + 24 * 60 * 60 * 1000 ->
  now1 + 24 * 60 * 60 * 1000 < now3 ->
  reportBrowseLog P svc e1 now1 c
  = (mkResult 200 "浏览记录上报成功" (Some (Recorded (nextId c) now1)), c1)
  /\ reportBrowseLog P svc e2 now2 c1
     = (mkResult 200 "24小时内已记录该内容的浏览，无需重复上报"
          (Some (AlreadyRecorded (_id r1) (createdAt r1))), c1)
  /\ _id r1 = nextId c /\ createdAt r1 = now1
  /\ filter (Mongo.matches (duplicateQuery svc e2 t now2)) (docs c1) = [r1]
  /\ (forall r, In r (docs c1) /\ recordOfViewer e1 r /\ targetId r = t
                /\ now2 - 24 * 60 * 60 * 1000 <= createdAt r
                <-> r = r1)
  /\ reportBrowseLog P svc e3 now3 c1
     = (mkResult 200 "浏览记录上报成功"
          (Some (Recorded (S (nextId c)) now3)),
        mkCollection (docs c ++ [r1; r3]) (S (S (nextId c))))
  /\ _id r3 <> _id r1 /\ createdAt r3 = now3.
Proof.
  intros svc r1 c1 r3 V1 V2 V3 (_ & U12 & A12) (_ & U13 & _) Fresh L12 W12 W13.
  assert (DI : duplicateInterval svc = 24 * 60 * 60 * 1000) by reflexivity.
  assert (Old : forall x, In x (docs c) ->
                Mongo.matches (duplicateQuery svc e1 t now1) x = false)
    by now apply find_None_iff.
  assert (M2 : Mongo.matches (duplicateQuery svc e2 t now2) r1 = true).
  { apply ofViewer_matches.
    - generalize (browseRecord_ofViewer e1 t now1 (nextId c)).
      unfold recordOfViewer. rewrite <- U12, <- A12. exact (fun H => H).
    - reflexivity.
    - rewrite DI. simpl. lia. }
  assert (M3 : Mongo.matches (duplicateQuery svc e3 t now3) r1 = false).
  { rewrite matches_duplicateQuery, DI.
    replace (now3 - 24 * 60 * 60 * 1000 <=? createdAt r1) with false
      by (symmetry; apply Z.leb_gt; simpl; lia).
    now rewrite andb_false_r. }
  split; [|split; [|split; [|split; [|split; [|split; [|split; [|split]]]]]]].
  - rewrite (reportBrowseLog_valid P svc e1 now1 t c V1), Fresh. reflexivity.
  - rewrite (reportBrowseLog_valid P svc e2 now2 t c1 V2).
    unfold Mongo.findOne. change (docs c1) with (docs c ++ [r1]). rewrite find_snoc; [rewrite M2; reflexivity|].
    apply find_None_iff. intros x Hx.
    apply (duplicateQuery_later svc e1 e2 t now1 now2); auto.
  - reflexivity.
  - reflexivity.
  - change (docs c1) with (docs c ++ [r1]). rewrite filter_app. cbn [filter]. rewrite M2.
    rewrite filter_none; [reflexivity|].
    intros x Hx. apply (duplicateQuery_later svc e1 e2 t now1 now2); auto.
  - intros r. split.
    + intros (Hin & Hv & Ht & Hw). simpl in Hin.
      apply in_app_iff in Hin. destruct Hin as [Hin|[<-|[]]]; [|reflexivity].
      exfalso. specialize (Old r Hin).
      rewrite (ofViewer_matches svc e1 t now1 r Hv Ht) in Old;
        [discriminate|]. rewrite DI. lia.
    + intros ->. repeat split.
      * simpl. apply in_app_iff. right. now left.
      * apply browseRecord_ofViewer.
      * simpl. lia.
  - rewrite (reportBrowseLog_valid P svc e3 now3 t c1 V3).
    unfold Mongo.findOne. change (docs c1) with (docs c ++ [r1]). rewrite find_snoc.
    + rewrite M3. simpl. now rewrite <- app_assoc.
    + apply find_None_iff. intros x Hx.
      apply (duplicateQuery_later svc e1 e3 t now1 now3); auto. lia.
  - simpl. lia.
  - reflexivity.
Qed.

Lemma report_idempotent_then_expires_witness :
  let t0 := Examples.t0 in
  let r1 := browseRecord Examples.alice "post-1" (t0 + Examples.minute) 1 in
  let c1 := mkCollection (docs Examples.afterAnonB ++ [r1]) 2 in
  reportBrowseLog Examples.noParse Examples.service
    (Examples.aliceStamped (t0 + 3 * Examples.hour)) (t0 + 3 * Examples.hour)
    c1
  = (mkResult 200 "24小时内已记录该内容的浏览，无需重复上报"
       (Some (AlreadyRecorded 1 (t0 + Examples.minute))), c1).
Proof.
  cbv zeta.
  refine (proj1 (proj2
    (report_idempotent_then_expires Examples.noParse "admin-pubkey"
       Examples.alice (Examples.aliceStamped (Examples.t0 + 3 * Examples.hour))
       Examples.alice "post-1"
       (Examples.t0 + Examples.minute) (Examples.t0 + 3 * Examples.hour)
       (Examples.t0 + 30 * Examples.hour) Examples.afterAnonB
       _ _ _ _ _ _ _ _ _))).
  - unfold validReport. repeat split; discriminate.
  - unfold validReport. repeat split; discriminate.
  - unfold validReport. repeat split; discriminate.
  - unfold sameKey. repeat split.
  - unfold sameKey. repeat split.
  - reflexivity.
  - vm_compute. discriminate.
  - vm_compute. discriminate.
  - vm_compute. reflexivity.
Defined.

(** ** The read operation *)

Section Read.

Variable svc : BrowseLogsService.

(** With the read code, the answer is the formatted page. *)
Lemma readBrowseLogs_703 q c :
  qe_code q = 703 ->
  readBrowseLogs svc q c
  = mkResult 200 "浏览记录查询成功"
      (Some {| rd_list := map (formatRecord svc q) (browseRecords svc q c);
               rd_pageNum := Js.orNat (qe_pageNum q) 1;
               rd_pageSize := Js.orNat (qe_pageSize q) 20;
               rd_total := Mongo.countDocuments (readQuery svc q) c |}).
Proof. unfold readBrowseLogs. now intros ->. Qed.

Lemma In_browseRecords q c r :
  In r (browseRecords svc q c) ->
  In r (docs c) /\ Mongo.matches (readQuery svc q) r = true.
Proof. unfold browseRecords. apply In_findPage. Qed.

(** The owner part of the query of a caller who is not the
    administrator. *)
Lemma matches_ownerFilter_user q r :
  isAdmin svc q = false ->
  Mongo.matches (ownerFilter svc q) r = true
  <-> user r = qe_user q
      \/ (anonymousId r = qe_anonymousId q /\ user r = None).
Proof.
  intros H. unfold ownerFilter. rewrite H. simpl.
  rewrite !andb_true_r, !orb_false_r, orb_true_iff, andb_true_iff.
  now rewrite !eqOptStr_spec.
Qed.

(** The owner part of the query of the administrator. *)
Lemma matches_ownerFilter_admin q r :
  isAdmin svc q = true ->
  Mongo.matches (ownerFilter svc q) r = true
  <-> (Js.truthyStr (qe_userFilter q) = true -> user r = qe_userFilter q)
      /\ (Js.truthyStr (qe_anonymousId q) = true ->
          anonymousId r = qe_anonymousId q).
Proof.
  intros H. unfold ownerFilter. rewrite H. simpl.
  destruct (Js.truthyStr (qe_userFilter q)),
           (Js.truthyStr (qe_anonymousId q)); simpl;
    rewrite ?andb_true_r, ?andb_true_iff, ?eqOptStr_spec;
    intuition congruence.
Qed.

(** The filter on the target type keeps the documents of that type. *)
Lemma matches_commonFilter_targetType q r ty :
  qe_targetType q = Some ty -> ty <> "" ->
  Mongo.matches (commonFilter q) r = true -> targetType r = Some ty.
Proof.
  intros Hty Hne. unfold commonFilter. rewrite Hty.
  apply String.eqb_neq in Hne. rewrite Hne, matches_app. simpl.
  rewrite !andb_true_iff, eqOptStr_spec. tauto.
Qed.

Lemma withUserFilter_user q f c :
  isAdmin svc q = false ->
  readBrowseLogs svc (withUserFilter q f) c = readBrowseLogs svc q c.
Proof.
  intros H.
  unfold readBrowseLogs, browseRecords, readQuery, ownerFilter, formatRecord.
  replace (isAdmin svc (withUserFilter q f)) with (isAdmin svc q)
    by reflexivity.
  rewrite H. reflexivity.
Qed.

End Read.

(** C4. Visibility of the read. For a caller who is not the
    administrator, the query matches a document exactly when the document
    is of the caller's user, or of the caller's anonymous id with a null
    user, and passes the common filters; the answer does not depend on
    the [userFilter] supplied; so every record returned is the caller's
    own, and none is owned by another identity. For the administrator, a
    [userFilter] and an [anonymousId] narrow the matched documents to
    those of that user and of that anonymous id, whoever they are, and
    the records returned are among them. *)
Theorem read_visibility svc q c :
  qe_code q = 703 ->
  (isAdmin svc q = false ->
   (forall r, Mongo.matches (readQuery svc q) r = true
              <-> (user r = qe_user q
                   \/ (anonymousId r = qe_anonymousId q /\ user r = None))
                  /\ Mongo.matches (commonFilter q) r = true)
   /\ (forall f, readBrowseLogs svc (withUserFilter q f) c
                 = readBrowseLogs svc q c)
   /\ (forall d x, data (readBrowseLogs svc q c) = Some d ->
         In x (rd_list d) ->
         (fr_user x = qe_user q
          \/ (fr_anonymousId x = qe_anonymousId q /\ fr_user x = None))
         /\ (forall u2, fr_user x = Some u2 -> qe_user q = Some u2)))
  /\ (isAdmin svc q = true ->
      (forall r, Mongo.matches (readQuery svc q) r = true
                 <-> (Js.truthyStr (qe_userFilter q) = true ->
                      user r = qe_userFilter q)
                     /\ (Js.truthyStr (qe_anonymousId q) = true ->
                         anonymousId r = qe_anonymousId q)
                     /\ Mongo.matches (commonFilter q) r = true)
      /\ (forall d x, data (readBrowseLogs svc q c) = Some d ->
            In x (rd_list d) ->
            (Js.truthyStr (qe_userFilter q) = true ->
             fr_user x = qe_userFilter q)
            /\ (Js.truthyStr (qe_anonymousId q) = true ->
                fr_anonymousId x = qe_anonymousId q))).
Proof.
  intros Hc. rewrite (readBrowseLogs_703 svc q c Hc). simpl. split; intros Ha.
  - assert (Q : forall r, Mongo.matches (readQuery svc q) r = true
                <-> (user r = qe_user q
                     \/ (anonymousId r = qe_anonymousId q /\ user r = None))
                    /\ Mongo.matches (commonFilter q) r = true).
    { intros r. unfold readQuery.
      now rewrite matches_app, andb_true_iff, matches_ownerFilter_user. }
    split; [exact Q|]. split.
    { intros f. rewrite (withUserFilter_user svc q f c Ha).
      now apply readBrowseLogs_703. }
    intros d x [= <-] Hx. simpl in Hx.
    apply in_map_iff in Hx. destruct Hx as (r & <- & Hr).
    apply In_browseRecords in Hr. destruct Hr as (_ & Hr).
    apply Q in Hr. destruct Hr as (Ho & _). simpl.
    split; [exact Ho|]. intros u2 Hu.
    destruct Ho as [Ho|(_ & Ho)]; congruence.
  - assert (Q : forall r, Mongo.matches (readQuery svc q) r = true
                <-> (Js.truthyStr (qe_userFilter q) = true ->
                     user r = qe_userFilter q)
                    /\ (Js.truthyStr (qe_anonymousId q) = true ->
                        anonymousId r = qe_anonymousId q)
                    /\ Mongo.matches (commonFilter q) r = true).
    { intros r. unfold readQuery.
      rewrite matches_app, andb_true_iff, matches_ownerFilter_admin by exact Ha.
      tauto. }
    split; [exact Q|].
    intros d x [= <-] Hx. simpl in Hx.
    apply in_map_iff in Hx. destruct Hx as (r & <- & Hr).
    apply In_browseRecords in Hr. destruct Hr as (_ & Hr).
    apply Q in Hr. simpl. tauto.
Qed.

Lemma read_visibility_witness :
  let alice := Examples.readAs "alice" (Some "anon-A") (Some "bob") None in
  let admin := Examples.readAs "admin-pubkey" None (Some "bob") None in
  (option_map (fun d => map fr_id (rd_list d))
     (data (readBrowseLogs Examples.service alice Examples.mixed))
   = Some [3; 2; 0]%nat
   /\ forall d x,
        data (readBrowseLogs Examples.service alice Examples.mixed) = Some d ->
        In x (rd_list d) -> fr_user x = Some "bob" -> False)
  /\ (option_map (fun d => map fr_id (rd_list d))
        (data (readBrowseLogs Examples.service admin Examples.mixed))
      = Some [1]%nat
      /\ forall d x,
           data (readBrowseLogs Examples.service admin Examples.mixed)
           = Some d ->
           In x (rd_list d) -> fr_user x = Some "bob").
Proof.
  cbv zeta. split; (split; [reflexivity|]); intros d x Hd Hx.
  - intros Hu.
    destruct (read_visibility Examples.service
                (Examples.readAs "alice" (Some "anon-A") (Some "bob") None)
                Examples.mixed eq_refl) as (H & _).
    destruct (H eq_refl) as (_ & _ & Hv).
    destruct (Hv d x Hd Hx) as (_ & Hown).
    specialize (Hown "bob" Hu). discriminate.
  - destruct (read_visibility Examples.service
                (Examples.readAs "admin-pubkey" None (Some "bob") None)
                Examples.mixed eq_refl) as (_ & H).
    destruct (H eq_refl) as (_ & Hv).
    destruct (Hv d x Hd Hx) as (Hu & _). exact (Hu eq_refl).
Defined.

(** C7. Masking of the IP address. With the read code the answer is the
    page of stored documents, formatted one by one: every returned record
    carries the placeholder in place of the address when the caller is
    not the administrator, and the stored address of its document when
    the caller is the administrator. *)
Theorem read_masks_ipAddress svc q c :
  qe_code q = 703 ->
  exists d,
    data (readBrowseLogs svc q c) = Some d
    /\ code (readBrowseLogs svc q c) = 200
    /\ Forall2 (fun x r => In r (docs c) /\ fr_id x = _id r
                           /\ fr_ipAddress x
                              = if isAdmin svc q then ipAddress r
                                else maskedIp)
         (rd_list d) (browseRecords svc q c)
    /\ (isAdmin svc q = false ->
        forall x, In x (rd_list d) -> fr_ipAddress x = "******")
    /\ (isAdmin svc q = true ->
        map fr_ipAddress (rd_list d)
        = map ipAddress (browseRecords svc q c)).
Proof.
  intros Hc. rewrite (readBrowseLogs_703 svc q c Hc). simpl.
  eexists. split; [reflexivity|]. simpl. split; [reflexivity|].
  split; [|split].
  - assert (H : forall r, In r (browseRecords svc q c) -> In r (docs c))
      by (intros r Hr; now apply In_browseRecords in Hr).
    induction (browseRecords svc q c) as [|r l IH]; simpl; constructor.
    + repeat split. apply H. now left.
    + apply IH. intros r' Hr'. apply H. now right.
  - intros Ha x Hx. apply in_map_iff in Hx. destruct Hx as (r & <- & _).
    unfold formatRecord. simpl. now rewrite Ha.
  - intros Ha. rewrite map_map. apply map_ext. intros r.
    unfold formatRecord. simpl. now rewrite Ha.
Qed.

Lemma read_masks_ipAddress_witness :
  (exists d,
     data (readBrowseLogs Examples.service
             (Examples.readAs "alice" (Some "anon-A") None None)
             Examples.mixed) = Some d
     /\ map fr_ipAddress (rd_list d) = ["******"; "******"; "******"])
  /\ (exists d,
        data (readBrowseLogs Examples.service
                (Examples.readAs "admin-pubkey" None None None)
                Examples.mixed) = Some d
        /\ map fr_ipAddress (rd_list d)
           = ["10.0.0.1"; "10.0.0.1"; "10.0.0.2"; "10.0.0.1"]).
Proof.
  split.
  - destruct (read_masks_ipAddress Examples.service
                (Examples.readAs "alice" (Some "anon-A") None None)
                Examples.mixed eq_refl) as (d & Hd & _).
    exists d. split; [exact Hd|].
    injection Hd as <-. reflexivity.
  - destruct (read_masks_ipAddress Examples.service
                (Examples.readAs "admin-pubkey" None None None)
                Examples.mixed eq_refl) as (d & Hd & _ & _ & _ & Hadm).
    exists d. split; [exact Hd|].
    rewrite (Hadm eq_refl). reflexivity.
Defined.

(** C10. The report inserts at most one document, and that document
    carries the id that the driver assigns, the user (or null), the
    anonymous id, the target, the address (or the empty string) and the
    two instants, and no target type. A read that filters on a target
    type fetches only documents of that type, so it never fetches a
    document that a report has built; the list it returns is the
    fetched page, formatted. *)
Theorem reported_record_has_no_targetType P svc e now c :
  let c' := snd (reportBrowseLog P svc e now c) in
  (docs c' = docs c
   \/ exists t,
        be_targetId e = Some t
        /\ docs c'
           = docs c ++ [ {| _id := nextId c;
                            user := Js.orNull (be_user e);
                            anonymousId := be_anonymousId e;
                            targetType := None;
                            targetId := t;
                            ipAddress := Js.orStr (be_ipAddress e) "";
                            createdAt := now;
                            updatedAt := now |} ])
  /\ (forall t id, targetType (browseRecord e t now id) = None)
  /\ (forall rsvc q c2 ty,
        qe_code q = 703 -> qe_targetType q = Some ty -> ty <> "" ->
        (forall r, In r (browseRecords rsvc q c2) -> targetType r = Some ty)
        /\ (forall t id,
              ~ In (browseRecord e t now id) (browseRecords rsvc q c2))
        /\ exists d,
             data (readBrowseLogs rsvc q c2) = Some d
             /\ rd_list d
                = map (formatRecord rsvc q) (browseRecords rsvc q c2)).
Proof.
  cbv zeta. split; [|split].
  - unfold reportBrowseLog.
    destruct (negb (be_code e =? 700)); [now left|].
    destruct (timeTooFar P e now); [now left|].
    destruct (be_targetId e) as [t|]; [|now left].
    destruct (t =? "")%string; [now left|].
    destruct (Mongo.findOne _ c); [now left|].
    right. exists t. split; reflexivity.
  - reflexivity.
  - intros rsvc q c2 ty Hc Hty Hne.
    assert (T : forall r, In r (browseRecords rsvc q c2) ->
                targetType r = Some ty).
    { intros r Hr. apply In_browseRecords in Hr. destruct Hr as (_ & Hr).
      unfold readQuery in Hr. rewrite matches_app in Hr.
      apply andb_true_iff in Hr. destruct Hr as (_ & Hr).
      now apply (matches_commonFilter_targetType q r ty). }
    split; [exact T|]. split.
    + intros t id Hin. apply T in Hin. discriminate.
    + rewrite (readBrowseLogs_703 rsvc q c2 Hc). simpl. eexists.
      split; reflexivity.
Qed.

Lemma reported_record_has_no_targetType_witness :
  let c' := snd (reportBrowseLog Examples.noParse Examples.service
                   Examples.alice Examples.t0 Examples.empty) in
  let q := Examples.readAs "alice" (Some "anon-A") None (Some "article") in
  docs c' = [browseRecord Examples.alice "post-1" Examples.t0 0]
  /\ forall r, In r (docs c') -> ~ In r (browseRecords Examples.service q c').
Proof.
  cbv zeta. split; [reflexivity|].
  intros r [<-|[]].
  destruct (reported_record_has_no_targetType Examples.noParse
              Examples.service Examples.alice Examples.t0 Examples.empty)
    as (_ & _ & H).
  destruct (H Examples.service
              (Examples.readAs "alice" (Some "anon-A") None (Some "article"))
              (snd (reportBrowseLog Examples.noParse Examples.service
                      Examples.alice Examples.t0 Examples.empty))
              "article" eq_refl eq_refl) as (_ & Hn & _).
  - discriminate.
  - apply Hn.
Defined.

(** ** The count operation *)

Lemma inStr_In x l : Mongo.inStr x l = true <-> In x l.
Proof.
  unfold Mongo.inStr. rewrite existsb_exists. split.
  - intros (y & Hy & E). apply String.eqb_eq in E. now subst.
  - intros H. exists x. split; [exact H | apply String.eqb_refl].
Qed.

(** Counting the documents of one target is counting its occurrences. *)
Lemma countDocuments_target t c :
  Mongo.countDocuments [Mongo.Field (Mongo.TargetIdIs t)] c = viewsOf t c.
Proof.
  unfold Mongo.countDocuments, viewsOf.
  induction (docs c) as [|r l IH]; simpl; [reflexivity|].
  rewrite andb_true_r.
  destruct (string_dec (targetId r) t) as [E|E].
  - apply String.eqb_eq in E. rewrite E. simpl. now rewrite IH.
  - apply String.eqb_neq in E. now rewrite E.
Qed.

(** The [$match] stage keeps every document of a requested target. *)
Lemma count_occ_matched ts t l :
  In t ts ->
  count_occ string_dec
    (map targetId (filter (Mongo.matchCond (Mongo.TargetIdIn ts)) l)) t
  = count_occ string_dec (map targetId l) t.
Proof.
  intros Hin. induction l as [|r l IH]; simpl; [reflexivity|].
  destruct (Mongo.inStr (targetId r) ts) eqn:E; simpl.
  - destruct (string_dec (targetId r) t); now rewrite IH.
  - destruct (string_dec (targetId r) t) as [Heq|_]; [|exact IH].
    apply inStr_In in Hin. congruence.
Qed.

Lemma In_matched_targets ts t l :
  In t (map targetId (filter (Mongo.matchCond (Mongo.TargetIdIn ts)) l))
  <-> In t ts /\ In t (map targetId l).
Proof.
  rewrite !in_map_iff. split.
  - intros (r & <- & Hr). apply filter_In in Hr. destruct Hr as (Hr & Hm).
    simpl in Hm. apply inStr_In in Hm. split; [exact Hm|]. now exists r.
  - intros (Hts & r & <- & Hr). exists r. split; [reflexivity|].
    apply filter_In. split; [exact Hr|]. simpl. now apply inStr_In.
Qed.

(** The groups of the batched count. *)
Lemma aggregateCounts_spec ts c :
  NoDup (map fst (Mongo.aggregateCounts ts c))
  /\ forall t n, In (t, n) (Mongo.aggregateCounts ts c)
                 <-> In t ts /\ n = viewsOf t c /\ (0 < n)%nat.
Proof.
  unfold Mongo.aggregateCounts, Mongo.groupCount, viewsOf. split.
  - rewrite map_map. simpl. rewrite map_id. apply NoDup_nodup.
  - intros t n. rewrite in_map_iff. split.
    + intros (t' & [= <- <-] & Hin).
      apply nodup_In in Hin. pose proof Hin as Hocc.
      apply In_matched_targets in Hin. destruct Hin as (Hts & _).
      apply (count_occ_In string_dec) in Hocc.
      rewrite (count_occ_matched ts t' (docs c) Hts) in *.
      repeat split; [exact Hts | lia].
    + intros (Hts & -> & Hpos). exists t. split.
      * now rewrite (count_occ_matched ts t (docs c) Hts).
      * apply nodup_In, In_matched_targets. split; [exact Hts|].
        apply (count_occ_In string_dec). lia.
Qed.

(** C8. Counting. For a single target the answer is the number of stored
    documents of that target, whatever their instants. For an array of
    targets the answer holds one entry per target, each requested target
    with at least one document paired with the number of its documents,
    and no entry for a target without documents. In the ledger with 5, 0
    and 2 views of three targets, the batched count gives 5 and 2 and no
    entry for the second target, and the count of the first gives 5. *)
Theorem count_single_and_batched c :
  (forall t, countBrowseLogs (mkCountEvent 704 (OneTarget t)) c
             = mkResult 200 "统计成功" (Some (Total (viewsOf t c))))
  /\ (forall ts, exists l,
        countBrowseLogs (mkCountEvent 704 (ManyTargets ts)) c
        = mkResult 200 "统计成功" (Some (PerTarget l))
        /\ NoDup (map fst l)
        /\ (forall t n, In (t, n) l
                        <-> In t ts /\ n = viewsOf t c /\ (0 < n)%nat)
        /\ (forall t, In t ts -> viewsOf t c = 0%nat ->
                      forall n, ~ In (t, n) l))
  /\ (viewsOf "p1" Examples.threeTargets = 5%nat
      /\ viewsOf "p2" Examples.threeTargets = 0%nat
      /\ viewsOf "p3" Examples.threeTargets = 2%nat
      /\ countBrowseLogs (mkCountEvent 704 (OneTarget "p1"))
           Examples.threeTargets
         = mkResult 200 "统计成功" (Some (Total 5))
      /\ exists l,
           countBrowseLogs (mkCountEvent 704 (ManyTargets ["p1"; "p2"; "p3"]))
             Examples.threeTargets
           = mkResult 200 "统计成功" (Some (PerTarget l))
           /\ List.length l = 2%nat
           /\ In ("p1", 5%nat) l /\ In ("p3", 2%nat) l
           /\ forall n, ~ In ("p2", n) l).
Proof.
  split; [|split].
  - intros t. unfold countBrowseLogs. simpl.
    now rewrite countDocuments_target.
  - intros ts. exists (Mongo.aggregateCounts ts c).
    destruct (aggregateCounts_spec ts c) as (Hnd & Hin).
    split; [reflexivity|]. split; [exact Hnd|]. split; [exact Hin|].
    intros t _ Hz n Hn. apply Hin in Hn. lia.
  - repeat split.
    eexists. split; [reflexivity|]. split; [reflexivity|].
    split; [simpl; tauto|]. split; [simpl; tauto|].
    intros n [H|[H|[]]]; discriminate.
Qed.

Lemma count_single_and_batched_witness :
  ~ (exists n, In ("p2", n) (Mongo.aggregateCounts ["p1"; "p2"; "p3"]
                               Examples.threeTargets)).
Proof.
  destruct (count_single_and_batched Examples.threeTargets) as (_ & H & _).
  destruct (H ["p1"; "p2"; "p3"]) as (l & Hl & _ & _ & Hz).
  injection Hl as <-.
  intros (n & Hn). revert Hn.
  apply Hz; [simpl; tauto | reflexivity].
Defined.

(** ** The router *)

Section Dispatch.

Import Router.

(** Outside the ranges of the user and event domains the switch calls
    nothing. *)
Lemma dispatch_outside_ranges event ops c u :
  inRange 100 200 c = false -> inRange 200 300 c = false ->
  dispatch event ops c u
  = if knownOps ops then NoResponse else Thrown (UnknownOps ops).
Proof.
  intros H1 H2. unfold dispatch, knownOps. rewrite H1, H2.
  destruct (ops =? "C")%string; [reflexivity|].
  destruct (ops =? "R")%string; [reflexivity|].
  destruct (ops =? "U")%string; [reflexivity|].
  destruct (ops =? "D")%string; reflexivity.
Qed.

(** With the three fields present, the message is dispatched. *)
Lemma handleMessage_present event ops c u :
  ev_ops event = Some ops -> ev_code event = Some c ->
  ev_user event = Some u -> missingField event = false ->
  handleMessage (Envelope event) = dispatch event ops c u.
Proof. unfold handleMessage. now intros -> -> -> ->. Qed.

(** What the switch does at a pair where it calls no service. *)
Lemma dispatch_unregistered event ops c u :
  registered ops c = false ->
  dispatch event ops c u
  = if negb (knownOps ops) then Thrown (UnknownOps ops)
    else if (ops =? "U")%string && (c =? 201)
    then Thrown UpdateEventNotImplemented
    else if (ops =? "D")%string && (c =? 202)
    then Thrown DeleteEventNotImplemented
    else NoResponse.
Proof.
  unfold registered, dispatch, knownOps, inRange.
  destruct (ops =? "C")%string eqn:EC.
  { apply String.eqb_eq in EC. subst ops. simpl.
    rewrite !orb_false_r. intros H.
    apply orb_false_iff in H. destruct H as (-> & ->).
    repeat match goal with |- context [if ?b then _ else _] =>
      destruct b end; reflexivity. }
  destruct (ops =? "R")%string eqn:ER.
  { apply String.eqb_eq in ER. subst ops. simpl.
    rewrite !orb_false_r. intros H.
    apply orb_false_iff in H. destruct H as (-> & ->).
    repeat match goal with |- context [if ?b then _ else _] =>
      destruct b end; reflexivity. }
  destruct (ops =? "U")%string eqn:EU.
  { apply String.eqb_eq in EU. subst ops. simpl.
    rewrite !orb_false_r. intros ->.
    destruct (c =? 201) eqn:E201.
    - apply Z.eqb_eq in E201. subst c. reflexivity.
    - repeat match goal with |- context [if ?b then _ else _] =>
        destruct b end; reflexivity. }
  destruct (ops =? "D")%string eqn:ED.
  { apply String.eqb_eq in ED. subst ops. simpl. intros ->.
    destruct (c =? 202) eqn:E202.
    - apply Z.eqb_eq in E202. subst c. reflexivity.
    - repeat match goal with |- context [if ?b then _ else _] =>
        destruct b end; reflexivity. }
  reflexivity.
Qed.

End Dispatch.

(** C2, as the router is written. A well-formed command whose code lies
    in [700, 800) reaches no handler at all: not a ledger operation, and
    not the user or event services. With one of the letters C, R, U, D
    the switch falls through without a response and without an error;
    with any other letter the command fails as an unknown operation. *)
Theorem ledger_code_reaches_no_handler event ops c u :
  Router.ev_ops event = Some ops -> Router.ev_code event = Some c ->
  Router.ev_user event = Some u -> ops <> "" -> u <> "" ->
  700 <= c < 800 ->
  Router.handleMessage (Router.Envelope event)
  = (if Router.knownOps ops then Router.NoResponse
     else Router.Thrown (Router.UnknownOps ops))
  /\ forall h, Router.handleMessage (Router.Envelope event)
               <> Router.Invoked h.
Proof.
  intros Ho Hc Hu Hops Huser Hr.
  assert (M : Router.missingField event = false).
  { unfold Router.missingField. rewrite Ho, Hc, Hu. simpl.
    apply String.eqb_neq in Hops. apply String.eqb_neq in Huser.
    rewrite Hops, Huser. simpl.
    replace (c =? 0) with false by (symmetry; apply Z.eqb_neq; lia).
    reflexivity. }
  rewrite (handleMessage_present event ops c u Ho Hc Hu M).
  rewrite dispatch_outside_ranges.
  - split; [reflexivity|].
    intros h. destruct (Router.knownOps ops); discriminate.
  - unfold Router.inRange. apply andb_false_iff. right. apply Z.ltb_ge. lia.
  - unfold Router.inRange. apply andb_false_iff. right. apply Z.ltb_ge. lia.
Qed.

Lemma ledger_code_reaches_no_handler_witness :
  Router.handleMessage (Router.Envelope (Examples.envelope "R" 703))
  = Router.NoResponse
  /\ Router.handleMessage (Router.Envelope (Examples.envelope "X" 704))
     = Router.Thrown (Router.UnknownOps "X").
Proof.
  split.
  - refine (proj1 (ledger_code_reaches_no_handler
                     (Examples.envelope "R" 703) "R" 703 "alice"
                     eq_refl eq_refl eq_refl _ _ _));
      [discriminate | discriminate | lia].
  - refine (proj1 (ledger_code_reaches_no_handler
                     (Examples.envelope "X" 704) "X" 704 "alice"
                     eq_refl eq_refl eq_refl _ _ _));
      [discriminate | discriminate | lia].
Defined.

(** The report, read and count commands, well formed, are not dispatched
    to the ledger operation of their code: the router answers none of
    them. *)
Lemma ledger_commands_not_dispatched :
  Router.missingField (Examples.envelope "C" 700) = false
  /\ ~ (exists h,
          Router.ledgerHandler 700 (Examples.envelope "C" 700) = Some h
          /\ Router.handleMessage (Router.Envelope (Examples.envelope "C" 700))
             = Router.Invoked h)
  /\ ~ (exists h,
          Router.ledgerHandler 703 (Examples.envelope "R" 703) = Some h
          /\ Router.handleMessage (Router.Envelope (Examples.envelope "R" 703))
             = Router.Invoked h)
  /\ ~ (exists h,
          Router.ledgerHandler 704 (Examples.envelope "R" 704) = Some h
          /\ Router.handleMessage (Router.Envelope (Examples.envelope "R" 704))
             = Router.Invoked h)
  /\ Router.handleMessage (Router.Envelope (Examples.envelope "C" 700))
     = Router.NoResponse.
Proof.
  split; [reflexivity|].
  repeat split; intros (h & _ & H); discriminate.
Qed.

(** C6, as the router is written. A command that lacks [ops], [code] or
    [user] fails with the invalid-format error. A command with the three
    fields whose [(ops, code)] is not one at which the switch calls a
    service reaches no handler: it fails as an unknown operation when the
    letter is none of C, R, U, D, it fails as not implemented at (U, 201)
    and (D, 202), and otherwise the switch falls through, without a
    response and without an error. *)
Theorem unrouted_command_reaches_no_handler event :
  (Router.missingField event = true ->
   Router.handleMessage (Router.Envelope event)
   = Router.Thrown Router.InvalidFormat)
  /\ (forall ops c u,
        Router.ev_ops event = Some ops -> Router.ev_code event = Some c ->
        Router.ev_user event = Some u ->
        Router.missingField event = false ->
        Router.registered ops c = false ->
        Router.handleMessage (Router.Envelope event)
        = (if negb (Router.knownOps ops)
           then Router.Thrown (Router.UnknownOps ops)
           else if (ops =? "U")%string && (c =? 201)
           then Router.Thrown Router.UpdateEventNotImplemented
           else if (ops =? "D")%string && (c =? 202)
           then Router.Thrown Router.DeleteEventNotImplemented
           else Router.NoResponse)
        /\ forall h, Router.handleMessage (Router.Envelope event)
                     <> Router.Invoked h).
Proof.
  split.
  - unfold Router.handleMessage. now intros ->.
  - intros ops c u Ho Hc Hu M Hr.
    rewrite (handleMessage_present event ops c u Ho Hc Hu M).
    rewrite (dispatch_unregistered event ops c u Hr).
    split; [reflexivity|]. intros h.
    repeat match goal with |- context [if ?b then _ else _] =>
      destruct b end; discriminate.
Qed.

Lemma unrouted_command_reaches_no_handler_witness :
  Router.handleMessage
    (Router.Envelope
       (Router.mkEvent (Some "C") None (Some "alice") None None None None))
  = Router.Thrown Router.InvalidFormat
  /\ Router.handleMessage (Router.Envelope (Examples.envelope "U" 201))
     = Router.Thrown Router.UpdateEventNotImplemented
  /\ Router.handleMessage (Router.Envelope (Examples.envelope "D" 150))
     = Router.NoResponse.
Proof.
  split; [|split].
  - exact (proj1 (unrouted_command_reaches_no_handler
                    (Router.mkEvent (Some "C") None (Some "alice") None None
                       None None)) eq_refl).
  - exact (proj1 (proj2 (unrouted_command_reaches_no_handler
                           (Examples.envelope "U" 201))
                    "U" 201 "alice" eq_refl eq_refl eq_refl eq_refl eq_refl)).
  - exact (proj1 (proj2 (unrouted_command_reaches_no_handler
                           (Examples.envelope "D" 150))
                    "D" 150 "alice" eq_refl eq_refl eq_refl eq_refl eq_refl)).
Defined.

(** A well-formed command at a pair without handler, (C, 150), does not
    fail: no error is thrown, the switch falls through. *)
Lemma unregistered_code_is_not_an_error :
  Router.missingField (Examples.envelope "C" 150) = false
  /\ Router.registered "C" 150 = false
  /\ Router.handleMessage (Router.Envelope (Examples.envelope "C" 150))
     = Router.NoResponse
  /\ ~ (exists e,
          Router.handleMessage (Router.Envelope (Examples.envelope "C" 150))
          = Router.Thrown e).
Proof.
  repeat split. intros (e & H). discriminate.
Qed.

(** ** Repeating a report, whatever the ledger *)

Lemma find_narrow {A} (p1 p2 : A -> bool) (l : list A) (r : A) :
  (forall x, p1 x = false -> p2 x = false) ->
  find p1 l = Some r -> p2 r = true -> find p2 l = Some r.
Proof.
  intros Hsub. induction l as [|y l IH]; simpl; [discriminate|].
  destruct (p1 y) eqn:E1.
  - intros [= ->] ->. reflexivity.
  - rewrite (Hsub y E1). exact IH.
Qed.

(** X16. Whether the first report inserted a record or found one, a
    second report of the same viewer and target, made while the record
    that the first one answered with is still in the window, changes
    nothing and answers with that same record. *)
Lemma report_repeat_unchanged P svc e1 e2 t now1 now2 c id ts :
  validReport P e1 now1 t -> validReport P e2 now2 t -> sameKey e1 e2 ->
  now1 <= now2 ->
  (data (fst (reportBrowseLog P svc e1 now1 c)) = Some (AlreadyRecorded id ts)
   \/ data (fst (reportBrowseLog P svc e1 now1 c)) = Some (Recorded id ts)) ->
  now2 - duplicateInterval svc <= ts ->
  let c1 := snd (reportBrowseLog P svc e1 now1 c) in
  reportBrowseLog P svc e2 now2 c1
  = (mkResult 200 "24小时内已记录该内容的浏览，无需重复上报"
       (Some (AlreadyRecorded id ts)), c1).
Proof.
  intros V1 V2 (_ & U & A) Hle Hres Hw. cbv zeta.
  rewrite (reportBrowseLog_valid P svc e1 now1 t c V1) in *.
  assert (Sub : forall x,
            Mongo.matches (duplicateQuery svc e1 t now1) x = false ->
            Mongo.matches (duplicateQuery svc e2 t now2) x = false)
    by (intros x; now apply duplicateQuery_later).
  destruct (Mongo.findOne (duplicateQuery svc e1 t now1) c) as [r|] eqn:F;
    simpl in Hres; destruct Hres as [Hres|Hres]; try discriminate;
    injection Hres as <- <-; simpl snd;
    rewrite (reportBrowseLog_valid P svc e2 now2 t _ V2).
  - assert (M : Mongo.matches (duplicateQuery svc e2 t now2) r = true).
    { apply find_some in F. destruct F as (_ & F).
      rewrite matches_duplicateQuery in *. rewrite <- U.
      apply andb_true_iff in F. destruct F as (F & ->).
      apply andb_true_iff in F. destruct F as (-> & _).
      apply Z.leb_le in Hw. now rewrite Hw. }
    unfold Mongo.findOne in *.
    now rewrite (find_narrow _ _ _ r Sub F M).
  - unfold Mongo.findOne in *. simpl docs. rewrite find_snoc.
    + replace (Mongo.matches (duplicateQuery svc e2 t now2)
                 (browseRecord e1 t now1 (nextId c))) with true;
        [reflexivity|].
      symmetry. apply ofViewer_matches; [|reflexivity|exact Hw].
      generalize (browseRecord_ofViewer e1 t now1 (nextId c)).
      unfold recordOfViewer. rewrite <- U, <- A. exact (fun H => H).
    + apply find_None_iff. intros x Hx. apply Sub.
      now apply (find_none _ _ F).
Qed.

(** * Further properties of the ledger and of the router *)

(** ** Reports in sequence *)

(** A report leaves the ledger as it is, or it is a valid report whose
    duplicate check found nothing and it appends the document it builds. *)
Lemma reportBrowseLog_cases P svc e now c :
  (snd (reportBrowseLog P svc e now c) = c
   /\ forall id ts, data (fst (reportBrowseLog P svc e now c))
                    <> Some (Recorded id ts))
  \/ exists t,
       validReport P e now t
       /\ Mongo.findOne (duplicateQuery svc e t now) c = None
       /\ data (fst (reportBrowseLog P svc e now c))
          = Some (Recorded (nextId c) now)
       /\ snd (reportBrowseLog P svc e now c)
          = mkCollection (docs c ++ [browseRecord e t now (nextId c)])
              (S (nextId c)).
Proof.
  unfold reportBrowseLog.
  destruct (be_code e =? 700) eqn:Ec; simpl;
    [|left; split; [reflexivity | discriminate]].
  destruct (timeTooFar P e now) eqn:Es;
    [left; split; [reflexivity | discriminate]|].
  destruct (be_targetId e) as [t|] eqn:Et;
    [|left; split; [reflexivity | discriminate]].
  destruct (t =? "")%string eqn:En;
    [left; split; [reflexivity | discriminate]|].
  destruct (Mongo.findOne (duplicateQuery svc e t now) c) eqn:F;
    [left; split; [reflexivity | discriminate]|].
  right. exists t. simpl.
  split; [|split; [exact F|split; reflexivity]].
  unfold validReport. rewrite Es, Et.
  split; [now apply Z.eqb_eq|]. split; [reflexivity|].
  split; [reflexivity | now apply String.eqb_neq].
Qed.

Lemma ForallOrdPairs_snoc {A} (R : A -> A -> Prop) (l : list A) (r : A) :
  ForallOrdPairs R l -> Forall (fun x => R x r) l ->
  ForallOrdPairs R (l ++ [r]).
Proof.
  induction 1 as [|a l Ha Hl IH]; intros Hr; simpl.
  - constructor; constructor.
  - inversion Hr as [|? ? Har Hlr]; subst. constructor.
    + apply Forall_app. split; [exact Ha | now constructor].
    + now apply IH.
Qed.

(** The document that a report inserts is apart from every stored one. *)
Lemma inserted_windowApart svc e t now id c x :
  Mongo.findOne (duplicateQuery svc e t now) c = None ->
  In x (docs c) -> windowApart svc x (browseRecord e t now id).
Proof.
  intros F Hx Ht Hu. simpl in *.
  pose proof (find_none _ _ F x Hx) as M.
  rewrite matches_duplicateQuery in M.
  apply String.eqb_eq in Ht. rewrite Ht in M. simpl in M.
  destruct (now - duplicateInterval svc <=? createdAt x) eqn:W;
    [|apply Z.leb_gt in W; lia].
  simpl in M. exfalso.
  destruct (Js.truthyStr (be_user e)) eqn:T; [|discriminate].
  rewrite (truthyStr_orNull _ T) in Hu.
  destruct Hu as [Hu|Hu].
  - rewrite Hu in T. discriminate.
  - apply eqOptStr_spec in Hu. congruence.
Qed.

Lemma report_keeps_windowApart P svc e now c :
  ForallOrdPairs (windowApart svc) (docs c) ->
  ForallOrdPairs (windowApart svc)
    (docs (snd (reportBrowseLog P svc e now c))).
Proof.
  intros H.
  destruct (reportBrowseLog_cases P svc e now c)
    as [(-> & _)|(t & _ & F & _ & ->)]; [exact H|].
  simpl. apply ForallOrdPairs_snoc; [exact H|].
  apply Forall_forall. intros x Hx.
  now apply (inserted_windowApart svc e t now (nextId c) c).
Qed.

(** X1. Whatever the events and the instants at which they are handled,
    a sequence of reports keeps the documents of the ledger apart: of two
    documents of one target, the later inserted one, when it has no user
    or the same user as the earlier, was created more than the duplicate
    interval after the earlier. *)
Theorem reports_keep_windows_apart P svc evs c :
  ForallOrdPairs (windowApart svc) (docs c) ->
  ForallOrdPairs (windowApart svc) (docs (runReports P svc evs c)).
Proof.
  unfold runReports. revert c.
  induction evs as [|[e now] evs IH]; intros c H; simpl; [exact H|].
  apply IH. now apply report_keeps_windowApart.
Qed.

Lemma reports_keep_windows_apart_witness :
  let c := runReports Examples.noParse Examples.service
             [(Examples.alice, Examples.t0);
              (Examples.anonA, Examples.t0 + Examples.minute);
              (Examples.alice, Examples.t0 + 25 * Examples.hour)]
             Examples.empty in
  map _id (docs c) = [0; 1]%nat
  /\ ForallOrdPairs (windowApart Examples.service) (docs c).
Proof.
  cbv zeta. split; [reflexivity|].
  apply (reports_keep_windows_apart Examples.noParse Examples.service).
  simpl. constructor.
Defined.

(** X2. Reports only append: after any sequence of reports the ledger
    holds the documents it held, in their order and unchanged, followed
    by at most one new document per event, and the counter of ids has
    advanced by the number of new documents. *)
Theorem reports_only_append P svc evs c :
  exists l,
    docs (runReports P svc evs c) = docs c ++ l
    /\ (List.length l <= List.length evs)%nat
    /\ nextId (runReports P svc evs c) = (nextId c + List.length l)%nat.
Proof.
  unfold runReports. revert c.
  induction evs as [|[e now] evs IH]; intros c; simpl.
  - exists []. rewrite app_nil_r. simpl. repeat split; lia.
  - destruct (IH (snd (reportBrowseLog P svc e now c))) as (l & Hd & Hl & Hn).
    destruct (reportBrowseLog_cases P svc e now c)
      as [(E & _)|(t & _ & _ & _ & E)]; rewrite E in *.
    + exists l. repeat split; [exact Hd | lia | exact Hn].
    + simpl in Hd, Hn. exists (browseRecord e t now (nextId c) :: l).
      rewrite Hd, Hn, <- app_assoc. simpl. repeat split; lia.
Qed.

(** X3. A report and the counts. When the report answers with a newly
    recorded view, the count of its target has grown by one and the count
    of every other target is as before; in every other case no count has
    changed. *)
Theorem report_then_count P svc e now c :
  let c' := snd (reportBrowseLog P svc e now c) in
  let res := fst (reportBrowseLog P svc e now c) in
  (forall id ts, data res = Some (Recorded id ts) ->
     exists t,
       be_targetId e = Some t
       /\ countBrowseLogs (mkCountEvent 704 (OneTarget t)) c'
          = mkResult 200 "统计成功" (Some (Total (S (viewsOf t c))))
       /\ forall t', t' <> t -> viewsOf t' c' = viewsOf t' c)
  /\ ((forall id ts, data res <> Some (Recorded id ts)) ->
      forall sel, countBrowseLogs (mkCountEvent 704 sel) c'
                  = countBrowseLogs (mkCountEvent 704 sel) c).
Proof.
  cbv zeta.
  destruct (reportBrowseLog_cases P svc e now c)
    as [(E & N)|(t & (_ & _ & Ht & _) & _ & D & E)]; split.
  - intros id ts H. now apply N in H.
  - intros _ sel. now rewrite E.
  - intros id ts _. exists t. split; [exact Ht|]. rewrite E. split.
    + unfold countBrowseLogs. simpl. rewrite countDocuments_target.
      unfold viewsOf. simpl. rewrite map_app, count_occ_app. simpl.
      destruct (string_dec t t); [|congruence].
      do 4 f_equal. lia.
    + intros t' Hne. unfold viewsOf. simpl.
      rewrite map_app, count_occ_app. simpl.
      destruct (string_dec t t'); [congruence | lia].
  - intros N. exfalso. exact (N _ _ D).
Qed.

Lemma report_then_count_witness :
  countBrowseLogs (mkCountEvent 704 (OneTarget "post-1"))
    (snd (reportBrowseLog Examples.noParse Examples.service Examples.alice
            (Examples.t0 + Examples.minute) Examples.afterAnonB))
  = mkResult 200 "统计成功" (Some (Total 2)).
Proof.
  destruct (report_then_count Examples.noParse Examples.service Examples.alice
              (Examples.t0 + Examples.minute) Examples.afterAnonB)
    as (H & _).
  destruct (H 1%nat (Examples.t0 + Examples.minute) eq_refl)
    as (t & Ht & Hc & _).
  injection Ht as <-. exact Hc.
Defined.

(** ** Edge values of a report *)

(** X4. The [created_at] of an event is only checked, never stored: a
    report that is not refused for its clock is answered, and changes the
    ledger, exactly as the same event without [created_at]. A string that
    the date parser does not accept is never refused for its clock. *)
Theorem report_created_at_only_checked P svc e now c :
  (timeTooFar P e now = false ->
   reportBrowseLog P svc e now c
   = reportBrowseLog P svc (withCreatedAt e None) now c)
  /\ (forall s, be_created_at e = Some (TimeStr s) -> P s = None ->
        timeTooFar P e now = false).
Proof.
  split.
  - intros H. unfold reportBrowseLog. rewrite H.
    replace (timeTooFar P (withCreatedAt e None) now) with false.
    + reflexivity.
    + unfold timeTooFar, timeDiff, clientTime. simpl.
      rewrite Z.sub_diag. reflexivity.
  - intros s Hs Hp. unfold timeTooFar, timeDiff, clientTime. rewrite Hs.
    simpl. destruct (s =? "")%string; simpl.
    + rewrite Z.sub_diag. reflexivity.
    + now rewrite Hp.
Qed.

Lemma report_created_at_only_checked_witness :
  let stamped :=
    mkBrowseEvent 700 (Some "alice") (Some "anon-A") (Some "post-1") None
      (Some (TimeStr "yesterday")) in
  reportBrowseLog Examples.noParse Examples.service stamped Examples.t0
    Examples.empty
  = reportBrowseLog Examples.noParse Examples.service
      (withCreatedAt stamped None) Examples.t0 Examples.empty.
Proof.
  cbv zeta.
  destruct (report_created_at_only_checked Examples.noParse Examples.service
              (mkBrowseEvent 700 (Some "alice") (Some "anon-A")
                 (Some "post-1") None (Some (TimeStr "yesterday")))
              Examples.t0 Examples.empty) as (H & Hs).
  apply H. apply (Hs "yesterday"); reflexivity.
Defined.

(** X5. A report whose [user] is the empty string is handled as an
    anonymous one: the same answer and the same ledger as the event
    without user, and the document it may insert has a null user. *)
Theorem report_empty_user_is_anonymous P svc e now c :
  be_user e = Some "" ->
  reportBrowseLog P svc e now c
  = reportBrowseLog P svc (withUser e None) now c
  /\ forall r, In r (docs (snd (reportBrowseLog P svc e now c))) ->
               In r (docs c) \/ user r = None.
Proof.
  intros Hu.
  assert (E : reportBrowseLog P svc e now c
              = reportBrowseLog P svc (withUser e None) now c).
  { unfold reportBrowseLog, duplicateQuery, browseRecord, timeTooFar,
      timeDiff, clientTime. simpl. rewrite Hu. reflexivity. }
  split; [exact E|]. intros r.
  destruct (reportBrowseLog_cases P svc e now c)
    as [(-> & _)|(t & _ & _ & _ & ->)]; [now left|].
  simpl. rewrite in_app_iff. intros [H|[<-|[]]]; [now left|].
  right. simpl. now rewrite Hu.
Qed.

Lemma report_empty_user_is_anonymous_witness :
  let e := mkBrowseEvent 700 (Some "") (Some "anon-A") (Some "post-1")
             None None in
  reportBrowseLog Examples.noParse Examples.service e
    (Examples.t0 + Examples.minute) Examples.afterAnonB
  = reportBrowseLog Examples.noParse Examples.service Examples.anonA
      (Examples.t0 + Examples.minute) Examples.afterAnonB.
Proof.
  cbv zeta.
  exact (proj1 (report_empty_user_is_anonymous Examples.noParse
                  Examples.service
                  (mkBrowseEvent 700 (Some "") (Some "anon-A")
                     (Some "post-1") None None)
                  (Examples.t0 + Examples.minute) Examples.afterAnonB
                  eq_refl)).
Defined.

(** ** Pages of a read *)

Lemma length_insertDesc r l :
  List.length (Mongo.insertDesc r l) = S (List.length l).
Proof.
  induction l as [|x l IH]; simpl; [reflexivity|].
  destruct (createdAt x <=? createdAt r); simpl; [reflexivity | now rewrite IH].
Qed.

Lemma length_sortDesc l : List.length (Mongo.sortDesc l) = List.length l.
Proof.
  induction l as [|x l IH]; simpl; [reflexivity|].
  now rewrite length_insertDesc, IH.
Qed.

Lemma orNat_pos v d : d <> 0%nat -> Js.orNat v d <> 0%nat.
Proof.
  intros Hd. unfold Js.orNat. destruct v as [n|]; [|exact Hd].
  destruct (n =? 0)%nat eqn:E; [exact Hd | now apply Nat.eqb_neq].
Qed.

Lemma browseRecords_allMatches svc q c :
  browseRecords svc q c
  = firstn (Js.orNat (qe_pageSize q) 20)
      (skipn ((Js.orNat (qe_pageNum q) 1 - 1) * Js.orNat (qe_pageSize q) 20)
         (allMatches svc q c)).
Proof. reflexivity. Qed.

(** X6. The size of a page. With the read code, the list holds
    min(pageSize, total - (pageNum - 1) * pageSize) records, where a
    missing or zero page number is 1 and a missing or zero page size is
    20, and where [total] is the number of stored documents that the
    query matches, whatever the page asked for. *)
Theorem read_page_size svc q c :
  qe_code q = 703 ->
  exists d,
    data (readBrowseLogs svc q c) = Some d
    /\ rd_pageNum d = Js.orNat (qe_pageNum q) 1
    /\ rd_pageSize d = Js.orNat (qe_pageSize q) 20
    /\ rd_total d = List.length (filter (Mongo.matches (readQuery svc q))
                                   (docs c))
    /\ List.length (rd_list d)
       = Nat.min (rd_pageSize d)
           (rd_total d - (rd_pageNum d - 1) * rd_pageSize d)
    /\ (1 <= rd_pageNum d)%nat /\ (1 <= rd_pageSize d)%nat.
Proof.
  intros Hc. rewrite (readBrowseLogs_703 svc q c Hc). simpl.
  eexists. split; [reflexivity|]. simpl.
  repeat split.
  - rewrite length_map, browseRecords_allMatches, length_firstn, length_skipn.
    unfold allMatches. rewrite length_sortDesc. reflexivity.
  - pose proof (orNat_pos (qe_pageNum q) 1). lia.
  - pose proof (orNat_pos (qe_pageSize q) 20). lia.
Qed.

Lemma read_page_size_witness :
  exists d,
    data (readBrowseLogs Examples.service
            (withPage (Examples.readAs "admin-pubkey" None None None)
               (Some 2%nat) (Some 3%nat))
            Examples.mixed) = Some d
    /\ List.length (rd_list d) = 1%nat /\ rd_total d = 4%nat.
Proof.
  destruct (read_page_size Examples.service
              (withPage (Examples.readAs "admin-pubkey" None None None)
                 (Some 2%nat) (Some 3%nat))
              Examples.mixed eq_refl)
    as (d & Hd & Hn & Hs & Ht & Hl & _).
  exists d. split; [exact Hd|].
  rewrite Hl, Hn, Hs, Ht. split; reflexivity.
Defined.

(** ** Order of a read *)

Lemma insertDesc_sorted r l :
  StronglySorted notOlder l -> StronglySorted notOlder (Mongo.insertDesc r l).
Proof.
  induction 1 as [|x l Hl IH Hx]; simpl.
  - constructor; constructor.
  - destruct (createdAt x <=? createdAt r) eqn:E.
    + apply Z.leb_le in E. constructor; [now constructor|].
      constructor; [unfold notOlder; lia|].
      apply Forall_forall. intros y Hy.
      rewrite Forall_forall in Hx. specialize (Hx y Hy).
      unfold notOlder in *. lia.
    + apply Z.leb_gt in E. constructor; [exact IH|].
      apply Forall_forall. intros y Hy. apply In_insertDesc in Hy.
      destruct Hy as [->|Hy]; [unfold notOlder; lia|].
      rewrite Forall_forall in Hx. now apply Hx.
Qed.

Lemma sortDesc_sorted l : StronglySorted notOlder (Mongo.sortDesc l).
Proof.
  induction l as [|x l IH]; simpl; [constructor | now apply insertDesc_sorted].
Qed.

Lemma firstn_sorted {A} (R : A -> A -> Prop) n (l : list A) :
  StronglySorted R l -> StronglySorted R (firstn n l).
Proof.
  intros H. revert n. induction H as [|x l Hl IH Hx]; intros [|n]; simpl;
    try constructor.
  - apply IH.
  - apply Forall_forall. intros y Hy. apply In_firstn_In in Hy.
    rewrite Forall_forall in Hx. now apply Hx.
Qed.

Lemma skipn_sorted {A} (R : A -> A -> Prop) n (l : list A) :
  StronglySorted R l -> StronglySorted R (skipn n l).
Proof.
  intros H. revert n. induction H as [|x l Hl IH Hx]; intros [|n]; simpl;
    try constructor; try assumption.
  apply IH.
Qed.

Lemma browseRecords_sorted svc q c :
  StronglySorted notOlder (browseRecords svc q c).
Proof.
  rewrite browseRecords_allMatches.
  apply firstn_sorted, skipn_sorted, sortDesc_sorted.
Qed.

(** X7. The records of a read come newest first: in the returned list no
    record is followed by one with a later [createdAt]. *)
Theorem read_newest_first svc q c :
  StronglySorted newerFirst (returnedList (readBrowseLogs svc q c)).
Proof.
  unfold returnedList, readBrowseLogs.
  destruct (negb (qe_code q =? 703)); simpl; [constructor|].
  induction (browseRecords_sorted svc q c) as [|x l Hl IH Hx]; simpl;
    constructor; [exact IH|].
  apply Forall_forall. intros y Hy. apply in_map_iff in Hy.
  destruct Hy as (r & <- & Hr). rewrite Forall_forall in Hx.
  exact (Hx r Hr).
Qed.

(** ** Pages in sequence *)

Lemma firstn_plus {A} (a b : nat) (l : list A) :
  firstn (a + b) l = firstn a l ++ firstn b (skipn a l).
Proof.
  revert l. induction a as [|a IH]; intros [|x l]; simpl;
    try rewrite firstn_nil; try reflexivity.
  now rewrite IH.
Qed.

Lemma insertDesc_perm r l : Permutation (Mongo.insertDesc r l) (r :: l).
Proof.
  induction l as [|x l IH]; simpl; [reflexivity|].
  destruct (createdAt x <=? createdAt r); [reflexivity|].
  rewrite IH. apply perm_swap.
Qed.

Lemma sortDesc_perm l : Permutation (Mongo.sortDesc l) l.
Proof.
  induction l as [|x l IH]; simpl; [constructor|].
  rewrite insertDesc_perm. now constructor.
Qed.

(** The page [p + 1], of size [s], of a read. *)
Lemma returnedList_page svc q c p s :
  qe_code q = 703 -> s <> 0%nat ->
  returnedList (readBrowseLogs svc (withPage q (Some (S p)) (Some s)) c)
  = map (formatRecord svc q) (firstn s (skipn (p * s) (allMatches svc q c))).
Proof.
  intros Hc Hs. unfold returnedList.
  rewrite readBrowseLogs_703 by exact Hc. simpl.
  rewrite browseRecords_allMatches. simpl.
  apply Nat.eqb_neq in Hs. rewrite Hs, Nat.sub_0_r. reflexivity.
Qed.

(** With distinct instants, newest first is one order only. *)
Lemma newest_first_unique (l1 l2 : list BrowseRecord) :
  StronglySorted notOlder l1 -> StronglySorted notOlder l2 ->
  Permutation l1 l2 -> NoDup (map createdAt l1) -> l1 = l2.
Proof.
  intros S1. revert l2.
  induction S1 as [|a l1 S1 IH Ha]; intros l2 S2 Hp Hn.
  - apply Permutation_nil in Hp. now subst.
  - destruct l2 as [|b l2];
      [apply Permutation_sym, Permutation_nil in Hp; discriminate|].
    inversion S2 as [|? ? S2' Hb]; subst.
    simpl in Hn. inversion Hn as [|? ? Hnot Hn']; subst.
    assert (E : a = b).
    { assert (Hbin : In b (a :: l1))
        by (apply (Permutation_in _ (Permutation_sym Hp)); now left).
      destruct Hbin as [E|Hbin]; [exact E|]. exfalso.
      assert (Hain : In a (b :: l2))
        by (apply (Permutation_in _ Hp); now left).
      destruct Hain as [E|Hain]; [subst; now apply Hnot, in_map|].
      rewrite Forall_forall in Ha, Hb.
      pose proof (Ha b Hbin) as H1. pose proof (Hb a Hain) as H2.
      unfold notOlder in H1, H2.
      apply Hnot. replace (createdAt a) with (createdAt b) by lia.
      now apply in_map. }
    subst b. f_equal. apply IH; [exact S2' | | exact Hn'].
    now apply Permutation_cons_inv in Hp.
Qed.

(** X8. Reading the pages 1 to [k] of a fixed size one after the other,
    on an unchanged ledger whose matching documents have distinct
    [createdAt]. With distinct instants every newest-first order of the
    matching documents is the same list, whatever the database does with
    equal instants, so that the pages of separate queries are cut from
    one list: together they are its first [k * pageSize] documents, each
    formatted, no document skipped and none twice. Once [k * pageSize]
    reaches the number of matching documents, the pages together hold
    every matching document once. *)
Theorem read_pages_in_sequence svc q c s k :
  qe_code q = 703 -> s <> 0%nat ->
  NoDup (map createdAt
           (filter (Mongo.matches (readQuery svc q)) (docs c))) ->
  let page p :=
    returnedList (readBrowseLogs svc (withPage q (Some (S p)) (Some s)) c) in
  (forall l,
     Permutation l (filter (Mongo.matches (readQuery svc q)) (docs c)) ->
     StronglySorted notOlder l -> l = allMatches svc q c)
  /\ List.concat (map page (seq 0 k))
     = map (formatRecord svc q) (firstn (k * s) (allMatches svc q c))
  /\ ((List.length (filter (Mongo.matches (readQuery svc q)) (docs c))
       <= k * s)%nat ->
      Permutation (List.concat (map page (seq 0 k)))
        (map (formatRecord svc q)
           (filter (Mongo.matches (readQuery svc q)) (docs c)))).
Proof.
  intros Hc Hs Hn page.
  assert (T : List.concat (map page (seq 0 k))
              = map (formatRecord svc q)
                  (firstn (k * s) (allMatches svc q c))).
  { induction k as [|k IH]; [reflexivity|].
    rewrite seq_S, map_app, concat_app, IH. simpl.
    unfold page. rewrite (returnedList_page svc q c k s Hc Hs), app_nil_r.
    rewrite <- map_app. f_equal.
    replace (s + k * s)%nat with (k * s + s)%nat by lia.
    now rewrite firstn_plus. }
  split; [|split; [exact T|]].
  - intros l Hp Hl. apply newest_first_unique.
    + exact Hl.
    + apply sortDesc_sorted.
    + rewrite Hp. symmetry. apply sortDesc_perm.
    + apply (Permutation_NoDup (l := map createdAt
               (filter (Mongo.matches (readQuery svc q)) (docs c))));
        [|exact Hn].
      apply Permutation_map. now symmetry.
  - intros Hall. rewrite T.
    rewrite firstn_all2.
    + apply Permutation_map. apply sortDesc_perm.
    + unfold allMatches. now rewrite length_sortDesc.
Qed.

Lemma read_pages_in_sequence_witness :
  let q := Examples.readAs "admin-pubkey" None None None in
  let page p :=
    returnedList
      (readBrowseLogs Examples.service
         (withPage q (Some (S p)) (Some 3%nat)) Examples.mixed) in
  map fr_id (List.concat (map page (seq 0 2))) = [3; 2; 1; 0]%nat.
Proof.
  cbv zeta.
  rewrite (proj1 (proj2 (read_pages_in_sequence Examples.service
                    (Examples.readAs "admin-pubkey" None None None)
                    Examples.mixed 3%nat 2%nat eq_refl
                    (fun H => Nat.neq_succ_0 _ H)
                    ltac:(vm_compute;
                          repeat (constructor;
                                  [simpl; intuition discriminate|]);
                          constructor)))).
  reflexivity.
Defined.

(** ** A report read back *)

Lemma sortDesc_snoc_newest l r :
  (forall x, In x l -> createdAt x < createdAt r) ->
  Mongo.sortDesc (l ++ [r]) = r :: Mongo.sortDesc l.
Proof.
  induction l as [|x l IH]; intros H; simpl; [reflexivity|].
  rewrite IH by (intros y Hy; apply H; now right). simpl.
  replace (createdAt r <=? createdAt x) with false; [reflexivity|].
  symmetry. apply Z.leb_gt. specialize (H x (or_introl eq_refl)). lia.
Qed.

(** X9. A view that has just been recorded is read back first. When a
    report inserts a document, later than every stored one, the first
    page of a read by a caller who is not the administrator, without
    common filters, made on behalf of the user of the report (or, for a
    report without user, with the anonymous id of the report), starts
    with that document: its id and instant are those of the answer to the
    report and its address is masked. *)
Theorem report_then_read P svc e now c q id ts :
  data (fst (reportBrowseLog P svc e now c)) = Some (Recorded id ts) ->
  (forall x, In x (docs c) -> createdAt x < now) ->
  qe_code q = 703 -> isAdmin svc q = false ->
  (if Js.truthyStr (be_user e) then qe_user q = be_user e
   else qe_anonymousId q = be_anonymousId e) ->
  commonFilter q = [] -> Js.orNat (qe_pageNum q) 1 = 1%nat ->
  exists t rest,
    be_targetId e = Some t
    /\ returnedList
         (readBrowseLogs svc q (snd (reportBrowseLog P svc e now c)))
       = {| fr_id := id;
            fr_user := Js.orNull (be_user e);
            fr_anonymousId := be_anonymousId e;
            fr_targetId := t;
            fr_createdAt := ts;
            fr_updatedAt := ts;
            fr_ipAddress := "******" |} :: rest.
Proof.
  intros D New Hc Ha Hv Hf Hp.
  destruct (reportBrowseLog_cases P svc e now c)
    as [(_ & N)|(t & (_ & _ & Ht & _) & _ & D' & E)];
    [now apply N in D|].
  rewrite D' in D. injection D as <- <-. rewrite E.
  set (r := browseRecord e t now (nextId c)).
  assert (M : Mongo.matches (readQuery svc q) r = true).
  { unfold readQuery. rewrite Hf, app_nil_r.
    apply matches_ownerFilter_user; [exact Ha|]. subst r. simpl.
    destruct (Js.truthyStr (be_user e)) eqn:T.
    - left. rewrite Hv. now apply truthyStr_orNull.
    - right. split; [now symmetry | now apply falsyStr_orNull]. }
  unfold returnedList. rewrite readBrowseLogs_703 by exact Hc. simpl.
  rewrite browseRecords_allMatches, Hp. unfold allMatches. simpl.
  rewrite filter_app. cbn [filter]. rewrite M.
  rewrite sortDesc_snoc_newest.
  - destruct (Js.orNat (qe_pageSize q) 20) as [|n] eqn:S20;
      [now apply orNat_pos in S20|].
    simpl. exists t. eexists. split; [exact Ht|].
    unfold formatRecord at 1. rewrite Ha. reflexivity.
  - intros x Hx. apply filter_In in Hx. simpl. apply New. tauto.
Qed.

Lemma report_then_read_witness :
  hd_error
    (map fr_id
       (returnedList
          (readBrowseLogs Examples.service
             (Examples.readAs "alice" None None None)
             (snd (reportBrowseLog Examples.noParse Examples.service
                     Examples.alice (Examples.t0 + Examples.minute)
                     Examples.afterAnonB)))))
  = Some 1%nat.
Proof.
  destruct (report_then_read Examples.noParse Examples.service Examples.alice
              (Examples.t0 + Examples.minute) Examples.afterAnonB
              (Examples.readAs "alice" None None None)
              1%nat (Examples.t0 + Examples.minute))
    as (t & rest & _ & H);
    [reflexivity | | reflexivity | reflexivity | reflexivity | reflexivity
    | reflexivity |].
  - intros x [<-|[]]. reflexivity.
  - rewrite H. reflexivity.
Defined.

(** ** The stored addresses and a read *)











(** ** The time range of a read *)

Lemma commonFilter_half_range q :
  Js.truthyZ (qe_startTime q) = false \/ Js.truthyZ (qe_endTime q) = false ->
  commonFilter q = commonFilter (withTimeRange q None None).
Proof.
  intros H. unfold commonFilter. simpl. do 2 f_equal.
  destruct (qe_startTime q) as [lo|], (qe_endTime q) as [hi|];
    try reflexivity.
  simpl in H. destruct H as [H|H]; rewrite H; simpl;
    rewrite ?andb_false_r; reflexivity.
Qed.

(** X11. The time range of a read needs its two bounds. When
    [startTime] or [endTime] is missing, or is 0, the other bound is
    ignored: the answer is that of the read without any time range. When
    both are given, every document fetched has its [createdAt] between
    the instants sent for them, the bounds included: the bound itself
    when it is a time value within the range of dates, and the date 0
    when it is beyond that range, where [new Date] gives an invalid
    date. *)
Theorem read_time_range svc q c :
  (Js.truthyZ (qe_startTime q) = false \/ Js.truthyZ (qe_endTime q) = false ->
   readBrowseLogs svc q c = readBrowseLogs svc (withTimeRange q None None) c)
  /\ (forall lo hi,
        qe_startTime q = Some lo -> qe_endTime q = Some hi ->
        lo <> 0 -> hi <> 0 ->
        forall r, In r (browseRecords svc q c) ->
                  Mongo.dateSent lo <= createdAt r <= Mongo.dateSent hi)
  /\ (forall ms, Z.abs ms <= 8640000000000000 -> Mongo.dateSent ms = ms)
  /\ (forall ms, 8640000000000000 < Z.abs ms -> Mongo.dateSent ms = 0).
Proof.
  split; [|split; [|split]].
  - intros H. apply commonFilter_half_range in H.
    unfold readBrowseLogs, browseRecords, readQuery.
    rewrite <- H. reflexivity.
  - intros lo hi Hlo Hhi Nlo Nhi r Hr.
    apply In_browseRecords in Hr. destruct Hr as (_ & Hr).
    unfold readQuery, commonFilter in Hr. rewrite Hlo, Hhi in Hr.
    apply Z.eqb_neq in Nlo. apply Z.eqb_neq in Nhi.
    rewrite Nlo, Nhi in Hr. cbn [negb andb] in Hr.
    rewrite !matches_app in Hr.
    do 3 (apply andb_true_iff in Hr; destruct Hr as (_ & Hr)).
    unfold Mongo.matches in Hr. cbn [forallb Mongo.matchEntry Mongo.matchCond]
      in Hr.
    rewrite andb_true_r in Hr.
    apply andb_true_iff in Hr. destruct Hr as (H1 & H2).
    apply Z.leb_le in H1. apply Z.leb_le in H2. lia.
  - intros ms H. unfold Mongo.dateSent. apply Z.leb_le in H. now rewrite H.
  - intros ms H. unfold Mongo.dateSent. apply Z.leb_gt in H. now rewrite H.
Qed.

Lemma read_time_range_witness :
  let admin lo hi :=
    mkQueryEvent 703 (Some "admin-pubkey") None None None None lo hi
      None None in
  map fr_id
    (returnedList
       (readBrowseLogs Examples.service
          (admin (Some (Examples.t0 + 2)) None) Examples.mixed))
  = [3; 2; 1; 0]%nat
  /\ (forall r,
        In r (browseRecords Examples.service
                (admin (Some (Examples.t0 + 1)) (Some (Examples.t0 + 2)))
                Examples.mixed) ->
        Examples.t0 + 1 <= createdAt r <= Examples.t0 + 2)
  /\ returnedList
       (readBrowseLogs Examples.service
          (admin (Some Examples.t0) (Some 9000000000000000)) Examples.mixed)
     = [].
Proof.
  cbv zeta. split; [|split].
  - rewrite (proj1 (read_time_range Examples.service
                      (mkQueryEvent 703 (Some "admin-pubkey") None None None
                         None (Some (Examples.t0 + 2)) None None None)
                      Examples.mixed) (or_intror eq_refl)).
    reflexivity.
  - intros r Hr.
    exact (proj1 (proj2 (read_time_range Examples.service
                           (mkQueryEvent 703 (Some "admin-pubkey") None None
                              None None (Some (Examples.t0 + 1))
                              (Some (Examples.t0 + 2)) None None)
                           Examples.mixed))
             (Examples.t0 + 1) (Examples.t0 + 2) eq_refl eq_refl
             ltac:(discriminate) ltac:(discriminate) r Hr).
  - reflexivity.
Defined.

(** ** The batched count *)

Lemma sumCounts_groups (ids m : list string) :
  NoDup m ->
  sumCounts (map (fun t => (t, count_occ string_dec ids t)) m)
  = List.length (filter (fun x => Mongo.inStr x m) ids).
Proof.
  induction 1 as [|a m Ha Hm IH]; simpl.
  - induction ids as [|x ids IHi]; simpl; [reflexivity | exact IHi].
  - rewrite IH. clear IH.
    induction ids as [|x ids IHi]; simpl; [reflexivity|].
    destruct (string_dec x a) as [->|Hne].
    + rewrite String.eqb_refl. simpl.
      replace (Mongo.inStr a m) with false.
      * simpl. rewrite <- IHi. lia.
      * symmetry. apply not_true_iff_false. now rewrite inStr_In.
    + apply String.eqb_neq in Hne. rewrite Hne. simpl.
      destruct (Mongo.inStr x m); simpl; rewrite <- IHi; lia.
Qed.

Lemma filter_all {A} (p : A -> bool) (l : list A) :
  (forall x, In x l -> p x = true) -> filter p l = l.
Proof.
  induction l as [|y l IH]; simpl; intros H; [reflexivity|].
  rewrite (H y (or_introl eq_refl)). f_equal. apply IH.
  intros x Hx. apply H. now right.
Qed.

(** X12. The counts of a batched count add up to the number of stored
    documents whose target is one of the requested ids: no document of a
    requested target is left out or counted twice, also when an id is
    requested more than once. *)
Theorem batched_counts_add_up ts c :
  exists l,
    countBrowseLogs (mkCountEvent 704 (ManyTargets ts)) c
    = mkResult 200 "统计成功" (Some (PerTarget l))
    /\ sumCounts l
       = Mongo.countDocuments [Mongo.Field (Mongo.TargetIdIn ts)] c.
Proof.
  eexists. split; [reflexivity|].
  unfold Mongo.aggregateCounts, Mongo.groupCount, Mongo.countDocuments.
  rewrite sumCounts_groups by apply NoDup_nodup.
  rewrite filter_all.
  - rewrite length_map. f_equal. apply filter_ext. intros r. simpl.
    now rewrite andb_true_r.
  - intros x Hx. apply inStr_In, nodup_In. exact Hx.
Qed.

(** X13. A batched count depends on which ids are requested, not on
    their order or on how often each is given; for the empty array it is
    the empty list. *)
Theorem batched_count_by_membership ts ts' c :
  (forall t, In t ts <-> In t ts') ->
  countBrowseLogs (mkCountEvent 704 (ManyTargets ts)) c
  = countBrowseLogs (mkCountEvent 704 (ManyTargets ts')) c
  /\ countBrowseLogs (mkCountEvent 704 (ManyTargets [])) c
     = mkResult 200 "统计成功" (Some (PerTarget [])).
Proof.
  intros H. split.
  - unfold countBrowseLogs, Mongo.aggregateCounts. simpl. do 4 f_equal.
    apply filter_ext. intros r. simpl.
    destruct (Mongo.inStr (targetId r) ts) eqn:E.
    + symmetry. apply inStr_In, H, inStr_In. exact E.
    + symmetry. apply not_true_iff_false. rewrite inStr_In, <- H, <- inStr_In.
      now rewrite E.
  - unfold countBrowseLogs, Mongo.aggregateCounts. simpl. do 3 f_equal.
    replace (filter (Mongo.matchCond (Mongo.TargetIdIn [])) (docs c))
      with (@nil BrowseRecord); [reflexivity|].
    symmetry. apply filter_none. reflexivity.
Qed.

Lemma batched_count_by_membership_witness :
  countBrowseLogs (mkCountEvent 704 (ManyTargets ["p3"; "p1"; "p3"]))
    Examples.threeTargets
  = countBrowseLogs (mkCountEvent 704 (ManyTargets ["p1"; "p3"]))
      Examples.threeTargets.
Proof.
  apply (batched_count_by_membership ["p3"; "p1"; "p3"] ["p1"; "p3"]).
  intros t. simpl. tauto.
Defined.

(** ** The calls of the router *)

Lemma dispatch_handlerAt event ops c u h :
  Router.dispatch event ops c u = Router.Invoked h
  <-> handlerAt event ops c u = Some h.
Proof.
  unfold Router.dispatch, handlerAt, Router.inRange.
  destruct (ops =? "C")%string eqn:EC.
  { simpl. destruct (c =? 100) eqn:E1.
    - apply Z.eqb_eq in E1. subst c. simpl.
      destruct (Router.ev_data event); simpl; split; congruence.
    - destruct (c =? 200) eqn:E2.
      + apply Z.eqb_eq in E2. subst c. simpl. split; congruence.
      + apply String.eqb_eq in EC. subst ops. simpl.
        repeat match goal with |- context [if ?b then _ else _] =>
          destruct b end; split; discriminate. }
  destruct (ops =? "R")%string eqn:ER.
  { simpl. destruct (c =? 103) eqn:E1.
    - apply Z.eqb_eq in E1. subst c. simpl. split; congruence.
    - destruct (c =? 203) eqn:E2.
      + apply Z.eqb_eq in E2. subst c. simpl. split; congruence.
      + apply String.eqb_eq in ER. subst ops. simpl.
        repeat match goal with |- context [if ?b then _ else _] =>
          destruct b end; split; discriminate. }
  destruct (ops =? "U")%string eqn:EU.
  { simpl. destruct (c =? 101) eqn:E1.
    - apply Z.eqb_eq in E1. subst c. simpl. split; congruence.
    - apply String.eqb_eq in EU. subst ops. simpl.
      repeat match goal with |- context [if ?b then _ else _] =>
        destruct b end; split; discriminate. }
  destruct (ops =? "D")%string eqn:ED.
  { simpl. destruct (c =? 102) eqn:E1.
    - apply Z.eqb_eq in E1. subst c. simpl. split; congruence.
    - repeat match goal with |- context [if ?b then _ else _] =>
        destruct b end; split; discriminate. }
  simpl. split; discriminate.
Qed.

(** X14. The table of the router. A message reaches a service exactly
    when its envelope has a non-empty [ops], a [code] other than 0 and a
    non-empty [user], and [(ops, code)] is one of (C, 100) with a [data]
    object, (C, 200), (R, 103), (R, 203), (U, 101), (D, 102); the call
    made is the one of that pair. *)
Theorem handler_invoked_iff event h :
  Router.handleMessage (Router.Envelope event) = Router.Invoked h
  <-> exists ops c u,
        Router.ev_ops event = Some ops /\ Router.ev_code event = Some c
        /\ Router.ev_user event = Some u
        /\ ops <> "" /\ c <> 0 /\ u <> ""
        /\ handlerAt event ops c u = Some h.
Proof.
  split.
  - unfold Router.handleMessage.
    destruct (Router.missingField event) eqn:M; [discriminate|].
    unfold Router.missingField in M.
    destruct (Router.ev_ops event) as [ops|]; [|discriminate].
    destruct (Router.ev_code event) as [c|]; [|discriminate].
    destruct (Router.ev_user event) as [u|]; [|discriminate].
    simpl in M. intros H. exists ops, c, u.
    apply orb_false_iff in M. destruct M as (M & Mu).
    apply orb_false_iff in M. destruct M as (Mo & Mc).
    rewrite negb_involutive in Mo, Mc, Mu.
    repeat split.
    + now apply String.eqb_neq.
    + now apply Z.eqb_neq.
    + now apply String.eqb_neq.
    + now apply dispatch_handlerAt.
  - intros (ops & c & u & Ho & Hc & Hu & No & Nc & Nu & H).
    assert (M : Router.missingField event = false).
    { unfold Router.missingField. rewrite Ho, Hc, Hu. simpl.
      apply String.eqb_neq in No. apply Z.eqb_neq in Nc.
      apply String.eqb_neq in Nu. now rewrite No, Nc, Nu. }
    rewrite (handleMessage_present event ops c u Ho Hc Hu M).
    now apply dispatch_handlerAt.
Qed.

Lemma handlerAt_subject_and_domain event ops c u h :
  Router.ev_user event = Some u ->
  handlerAt event ops c u = Some h ->
  subjectOf h = Some u
  /\ ((Router.domainOf h = Router.UserDomain /\ 100 <= c < 200)
      \/ (Router.domainOf h = Router.EventDomain /\ 200 <= c < 300)).
Proof.
  intros Hu. unfold handlerAt.
  repeat match goal with
  | |- context [if ?a && (c =? ?k) then _ else _] =>
      let E := fresh "E" in
      destruct (a && (c =? k)) eqn:E;
      [apply andb_true_iff in E; destruct E as (_ & E);
       apply Z.eqb_eq in E; subst c|]
  end; try discriminate.
  - destruct (Router.ev_data event); simpl; [|discriminate].
    intros [= <-]. simpl. split; [reflexivity|]. left. split; [reflexivity|lia].
  - intros [= <-]. simpl. split; [exact Hu|]. right. split; [reflexivity|lia].
  - intros [= <-]. simpl. split; [reflexivity|]. left. split; [reflexivity|lia].
  - intros [= <-]. simpl. split; [reflexivity|]. right. split; [reflexivity|lia].
  - intros [= <-]. simpl. split; [reflexivity|]. left. split; [reflexivity|lia].
  - intros [= <-]. simpl. split; [reflexivity|]. left. split; [reflexivity|lia].
Qed.

(** X15. Whatever the message, a service that the router calls is called
    on behalf of the [user] of the envelope, never of another user, and
    it is a user service for a code in [100, 200) and an event service
    for a code in [200, 300); no operation of the browse ledger is ever
    called. *)
Theorem invoked_handler_subject_and_domain message h :
  Router.handleMessage message = Router.Invoked h ->
  exists event c,
    message = Router.Envelope event
    /\ Router.ev_code event = Some c
    /\ subjectOf h = Router.ev_user event
    /\ ((Router.domainOf h = Router.UserDomain /\ 100 <= c < 200)
        \/ (Router.domainOf h = Router.EventDomain /\ 200 <= c < 300))
    /\ Router.domainOf h <> Router.LedgerDomain.
Proof.
  destruct message as [| |event]; try discriminate.
  intros H. apply handler_invoked_iff in H.
  destruct H as (ops & c & u & _ & Hc & Hu & _ & _ & _ & H).
  exists event, c. split; [reflexivity|]. split; [exact Hc|].
  destruct (handlerAt_subject_and_domain event ops c u h Hu H) as (Hs & Hd).
  rewrite Hu. split; [exact Hs|]. split; [exact Hd|].
  destruct Hd as [(-> & _)|(-> & _)]; discriminate.
Qed.

Lemma invoked_handler_subject_and_domain_witness :
  subjectOf (Router.deleteUser "alice") = Some "alice"
  /\ Router.domainOf (Router.deleteUser "alice") <> Router.LedgerDomain.
Proof.
  destruct (invoked_handler_subject_and_domain
              (Router.Envelope (Examples.envelope "D" 102))
              (Router.deleteUser "alice") eq_refl)
    as (event & c & E & _ & Hs & _ & Hd).
  injection E as <-. split; [exact Hs | exact Hd].
Defined.

Lemma handler_invoked_iff_witness :
  Router.handleMessage (Router.Envelope (Examples.envelope "R" 203))
  = Router.Invoked (Router.readEvents "alice" 1000).
Proof.
  apply (proj2 (handler_invoked_iff (Examples.envelope "R" 203)
                  (Router.readEvents "alice" 1000))).
  exists "R", 203, "alice".
  repeat split; discriminate.
Defined.

(** ** Duplicates of a user *)

Lemma report_repeat_unchanged_witness :
  let now1 := Examples.t0 + Examples.minute in
  let now2 := Examples.t0 + 2 * Examples.hour in
  let c1 := snd (reportBrowseLog Examples.noParse Examples.service
                   Examples.alice now1 Examples.afterAnonB) in
  reportBrowseLog Examples.noParse Examples.service Examples.alice now2 c1
  = (mkResult 200 "24小时内已记录该内容的浏览，无需重复上报"
       (Some (AlreadyRecorded 1 now1)), c1).
Proof.
  cbv zeta.
  apply (report_repeat_unchanged Examples.noParse Examples.service
           Examples.alice Examples.alice "post-1"
           (Examples.t0 + Examples.minute) (Examples.t0 + 2 * Examples.hour)
           Examples.afterAnonB 1%nat (Examples.t0 + Examples.minute)).
  - unfold validReport. repeat split; discriminate.
  - unfold validReport. repeat split; discriminate.
  - unfold sameKey. repeat split.
  - vm_compute. discriminate.
  - right. reflexivity.
  - vm_compute. discriminate.
Defined.

(** X17. For a report with a user the duplicate check is exact: the
    report inserts a document if and only if the ledger holds no document
    of that user and that target created within the duplicate interval
    before [now]; documents of other users and documents without user
    never stand in its way. *)
Theorem report_user_dedup_exact P svc e now t c :
  validReport P e now t -> Js.truthyStr (be_user e) = true ->
  (data (fst (reportBrowseLog P svc e now c)) = Some (Recorded (nextId c) now)
   /\ docs (snd (reportBrowseLog P svc e now c))
      = docs c ++ [browseRecord e t now (nextId c)])
  <-> (forall r, In r (docs c) -> user r = be_user e -> targetId r = t ->
                 createdAt r < now - duplicateInterval svc).
Proof.
  intros V T. rewrite (reportBrowseLog_valid P svc e now t c V). split.
  - destruct (Mongo.findOne (duplicateQuery svc e t now) c) as [x|] eqn:F;
      [simpl; intros (D & _); discriminate|].
    intros _ r Hr Hu Ht.
    pose proof (find_none _ _ F r Hr) as M.
    rewrite matches_duplicateQuery, T in M.
    apply String.eqb_eq in Ht. apply eqOptStr_spec in Hu.
    rewrite Ht, Hu in M. simpl in M. rewrite andb_true_r in M.
    now apply Z.leb_gt in M.
  - intros H.
    replace (Mongo.findOne (duplicateQuery svc e t now) c) with
      (@None BrowseRecord); [split; reflexivity|].
    symmetry. apply find_None_iff. intros r Hr.
    rewrite matches_duplicateQuery, T.
    destruct (targetId r =? t)%string eqn:Et; [|reflexivity].
    destruct (Js.eqOptStr (user r) (be_user e)) eqn:Eu;
      [|now rewrite andb_false_r].
    apply String.eqb_eq in Et. apply eqOptStr_spec in Eu.
    specialize (H r Hr Eu Et). simpl. rewrite andb_true_r.
    apply Z.leb_gt. exact H.
Qed.

Lemma report_user_dedup_exact_witness :
  docs (snd (reportBrowseLog Examples.noParse Examples.service Examples.alice
               (Examples.t0 + Examples.minute) Examples.afterAnonB))
  = docs Examples.afterAnonB
    ++ [browseRecord Examples.alice "post-1"
          (Examples.t0 + Examples.minute) 1].
Proof.
  apply (proj2 (report_user_dedup_exact Examples.noParse Examples.service
                  Examples.alice (Examples.t0 + Examples.minute) "post-1"
                  Examples.afterAnonB
                  ltac:(unfold validReport; repeat split; discriminate)
                  eq_refl)).
  intros r [<-|[]]. discriminate.
Defined.
